(** * kubectl-evict: resolution of a target into pods and their eviction

    A shallow embedding of [pkg/cmd/evict.go] and [pkg/cmd/evict_api.go].

    The Go code talks to three outside parties: the kubeconfig loader and
    resource builder of cli-runtime, the selector helpers of apimachinery,
    and the API server reached through client-go.  None of them is part of
    the repository, so they appear here as interfaces:

    - [Apimachinery] is the selector library (a type class);
    - [Env] is everything that answers a call of the program: the
      kubeconfig, the resource builder and the API server.  The server's
      answers may depend on every request it has received so far.

    The program itself is written in a state and error monad whose state
    holds the receiver [*EvictOptions] (with the text written to [o.Out])
    and the log of requests sent to the cluster. *)

From stdpp Require Import base strings list gmap.
From Stdlib Require Import ZArith Ascii.

Local Open Scope string_scope.
Local Open Scope list_scope.

(** ** Go values *)

(** A Go [error] is modelled by its message, the text of [Error()]. *)
Definition error : Type := string.

(** The line feed of a Go ["\n"]. *)
Definition nl : string := String "010"%char EmptyString.

(** [context.Context]: the two roots of package context and the contexts
    derived from a parent with a cancel function.  [canceled] records
    whether that function has been called. *)
Inductive Context : Type :=
| context_Background
| context_TODO
| context_WithCancel (parent : Context) (canceled : bool).

(** [ctx.Err() != nil]: a context is done as soon as it or one of its
    ancestors is canceled; the roots never are. *)
Fixpoint ctxDone (ctx : Context) : bool :=
  match ctx with
  | context_Background | context_TODO => false
  | context_WithCancel parent canceled => canceled || ctxDone parent
  end.

(** The double quote that [%q] puts around a string. *)
Definition dquote : string := String "034"%char EmptyString.

(** ** Kubernetes API types (only the fields the program reads or writes) *)

Module metav1.
Record ObjectMeta : Type := { Name : string; Namespace : string }.

Record LabelSelectorRequirement : Type :=
  { Key : string; Operator : string; Values : list string }.

Record LabelSelector : Type :=
  { MatchLabels : gmap string string;
    MatchExpressions : list LabelSelectorRequirement }.

Record DeleteOptions : Type :=
  { GracePeriodSeconds : option Z; DryRun : list string }.

(** [new(metav1.DeleteOptions)]: the zero value. *)
Definition newDeleteOptions : DeleteOptions :=
  {| GracePeriodSeconds := None; DryRun := [] |}.

Record ListOptions : Type :=
  { LabelSelector_ : string; FieldSelector : string }.

Record APIResource : Type :=
  { rName : string; rKind : string; rGroup : string; rVersion : string }.

Definition DryRunAll : string := "All".
Definition NamespaceAll : string := "".
End metav1.

Module schema.
Record GroupVersion : Type := { Group : string; Version : string }.

(** [schema.GroupVersion{}] *)
Definition zero : GroupVersion := {| Group := ""; Version := "" |}.

#[global] Instance GroupVersion_eq_dec : EqDecision GroupVersion.
Proof. solve_decision. Defined.
End schema.

Module policyv1.
Definition GroupName : string := "policy".
Definition SchemeGroupVersion : schema.GroupVersion :=
  {| schema.Group := GroupName; schema.Version := "v1" |}.
End policyv1.

Module policyv1beta1.
Definition SchemeGroupVersion : schema.GroupVersion :=
  {| schema.Group := "policy"; schema.Version := "v1beta1" |}.
End policyv1beta1.

(** [policyv1.Eviction] and [policyv1beta1.Eviction] have the same two
    fields; which of the two is sent is recorded in the request. *)
Record Eviction : Type :=
  { ObjectMeta : metav1.ObjectMeta;
    DeleteOptions : option metav1.DeleteOptions }.

Record Pod : Type := { PodMeta : metav1.ObjectMeta }.

Definition mkPod (namespace name : string) : Pod :=
  {| PodMeta := {| metav1.Name := name; metav1.Namespace := namespace |} |}.

(** [runtime.Object]: the kinds the program distinguishes in its type
    switches.  A Go map that may be [nil] is an [option (gmap _ _)], a
    pointer that may be [nil] an [option].  [OtherObject] stands for any
    other registered type, given by what [%T] prints for it. *)
Inductive Object : Type :=
| PodList (Items : list Pod)
| APod (pod : Pod)
| ReplicaSet (meta : metav1.ObjectMeta) (Selector : option metav1.LabelSelector)
| ReplicationController (meta : metav1.ObjectMeta) (Selector : option (gmap string string))
| StatefulSet (meta : metav1.ObjectMeta) (Selector : option metav1.LabelSelector)
| DaemonSet (meta : metav1.ObjectMeta) (Selector : option metav1.LabelSelector)
| Deployment (meta : metav1.ObjectMeta) (Selector : option metav1.LabelSelector)
| Job (meta : metav1.ObjectMeta) (Selector : option metav1.LabelSelector)
| Service (meta : metav1.ObjectMeta) (Selector : option (gmap string string))
| Node (meta : metav1.ObjectMeta)
| OtherObject (goType : string).

(** What [%T] prints. *)
Definition goTypeName (object : Object) : string :=
  match object with
  | PodList _ => "*v1.PodList"
  | APod _ => "*v1.Pod"
  | ReplicaSet _ _ => "*v1.ReplicaSet"
  | ReplicationController _ _ => "*v1.ReplicationController"
  | StatefulSet _ _ => "*v1.StatefulSet"
  | DaemonSet _ _ => "*v1.DaemonSet"
  | Deployment _ _ => "*v1.Deployment"
  | Job _ _ => "*v1.Job"
  | Service _ _ => "*v1.Service"
  | Node _ => "*v1.Node"
  | OtherObject goType => goType
  end.

(** ** The selector library *)

(** [labels.Selector] and [fields.Selector] with the functions of
    apimachinery that the program calls.  The library's constructors never
    return a nil interface, so a selector of these types is non-nil. *)
Class Apimachinery : Type :=
  { labels_Selector : Type;
    fields_Selector : Type;
    LabelSelectorAsSelector : option metav1.LabelSelector -> error + labels_Selector;
    labels_SelectorFromSet : option (gmap string string) -> labels_Selector;
    fields_SelectorFromSet : option (gmap string string) -> fields_Selector;
    labels_String : labels_Selector -> string;
    fields_String : fields_Selector -> string }.

(** ** The cluster and the rest of the environment *)

(** The configuration [resource.NewBuilder(...)] has accumulated when
    [Do()] is called on it. *)
Record Builder : Type :=
  { NamespaceParam : string;
    ResourceNames : option (string * string);
    ResourceTypes : option string;
    LabelSelectorParam : option string }.

(** The two eviction clients behind the [Client] interface. *)
Inductive Client : Type := ClientV1 | ClientV1beta1.

(** Every call that leaves the process for the cluster. *)
Inductive Request : Type :=
| ReqInfos (b : Builder)
| ReqList (ctx : Context) (namespace : string) (opt : metav1.ListOptions)
| ReqDiscovery (groupVersion : string)
| ReqEvict (api : Client) (ctx : Context) (namespace : string) (eviction : Eviction).

Record Env : Type :=
  { (* o.configFlags.ToRawKubeConfigLoader().Namespace() *)
    kubeconfigNamespace : error + (string * bool);
    (* b.Do().Infos(): the objects of the visited infos *)
    builderInfos : Builder -> error + list Object;
    (* o.configFlags.ToRESTConfig() and kubernetes.NewForConfig *)
    toRESTConfig : option error;
    newForConfig : option error;
    (* the API server, answering after the requests of the given log *)
    serverList : list Request -> Context -> string -> metav1.ListOptions -> error + list Pod;
    serverResources : list Request -> string -> error + list metav1.APIResource;
    serverEvict : list Request -> Client -> Context -> string -> Eviction -> option error }.

(** ** The receiver and the monad *)

Record EvictOptions : Type :=
  { GracePeriodSeconds : Z;
    DryRun : bool;
    ResourceArg : string;
    Selector : string;
    Object_ : option Object;
    (* IOStreams.Out: the writes it has received, oldest first *)
    Out : list string }.

(** [NewEvictOptions] followed by the flag defaults of [NewCmdEvict]. *)
Definition NewEvictOptions : EvictOptions :=
  {| GracePeriodSeconds := (-1)%Z; DryRun := false; ResourceArg := "";
     Selector := ""; Object_ := None; Out := [] |}.

Record State : Type :=
  { o : EvictOptions;
    (* requests sent to the cluster, oldest first *)
    log : list Request }.

Inductive Result (A : Type) : Type :=
| Ok (a : A)
| Err (e : error)
| Panic (msg : string).
Arguments Ok {A} a.
Arguments Err {A} e.
Arguments Panic {A} msg.

Definition M (A : Type) : Type := State -> Result A * State.

#[global] Instance M_ret : MRet M := fun A a st => (Ok a, st).
#[global] Instance M_bind : MBind M := fun A B f m st =>
  match m st with
  | (Ok a, st') => f a st'
  | (Err e, st') => (Err e, st')
  | (Panic msg, st') => (Panic msg, st')
  end.

Definition fail {A : Type} (e : error) : M A := fun st => (Err e, st).
Definition panic {A : Type} (msg : string) : M A := fun st => (Panic msg, st).
Definition getOptions : M EvictOptions := fun st => (Ok (o st), st).
Definition modifyOptions (f : EvictOptions -> EvictOptions) : M unit :=
  fun st => (Ok tt, {| o := f (o st); log := log st |}).

(** Go's [x, err := f(); if err != nil { return err }]. *)
Definition try {A : Type} (r : error + A) : M A :=
  match r with inl e => fail e | inr a => mret a end.
Definition check (r : option error) : M unit :=
  match r with Some e => fail e | None => mret tt end.

(** Send a request: it is appended to the log and answered from the log
    as it stood before. *)
Definition send {A : Type} (req : Request) (answer : list Request -> A) : M A :=
  fun st => (Ok (answer (log st)), {| o := o st; log := log st ++ [req] |}).

(** What [o] is once [texts] have been written to [o.Out]. *)
Definition written (texts : list string) (opts : EvictOptions) : EvictOptions :=
  {| GracePeriodSeconds := GracePeriodSeconds opts; DryRun := DryRun opts;
     ResourceArg := ResourceArg opts; Selector := Selector opts;
     Object_ := Object_ opts; Out := Out opts ++ texts |}.

(** [fmt.Fprintf(o.Out, ...)] *)
Definition Fprintf_Out (text : string) : M unit :=
  modifyOptions (written [text]).

Definition setResourceArg (arg : string) (opts : EvictOptions) : EvictOptions :=
  {| GracePeriodSeconds := GracePeriodSeconds opts; DryRun := DryRun opts;
     ResourceArg := arg; Selector := Selector opts;
     Object_ := Object_ opts; Out := Out opts |}.

Definition setObject (object : Object) (opts : EvictOptions) : EvictOptions :=
  {| GracePeriodSeconds := GracePeriodSeconds opts; DryRun := DryRun opts;
     ResourceArg := ResourceArg opts; Selector := Selector opts;
     Object_ := Some object; Out := Out opts |}.

(** ** pkg/cmd/evict_api.go and pkg/cmd/evict.go *)

Definition EvictionSubresource : string := "pods/eviction".
Definition EvictionKind : string := "Eviction".

Definition evictUsageStr : string := "evict (POD | TYPE/NAME)".

Definition evictUsageErrStr : string :=
  "expected '" +:+ evictUsageStr +:+ "'." +:+ nl +:+
  "POD or TYPE/NAME is a required argument for the evict command".

(** The loop of [evictGroupVersion] over [resourceList.APIResources]: the
    first entry that passes the test is returned. *)
Fixpoint scanAPIResources (resources : list metav1.APIResource) : schema.GroupVersion :=
  match resources with
  | [] => schema.zero
  | resource :: rest =>
      if String.eqb (metav1.rName resource) EvictionSubresource
         && String.eqb (metav1.rKind resource) EvictionKind
         && (0 <? String.length (metav1.rGroup resource))%nat
         && (0 <? String.length (metav1.rVersion resource))%nat
      then {| schema.Group := metav1.rGroup resource;
              schema.Version := metav1.rVersion resource |}
      else scanAPIResources rest
  end.

(** The body of [RunEvict] between the resolution of the pods and the
    loop: the delete options and the verb. *)
Definition deleteOptionsOf (opts0 : EvictOptions) : metav1.DeleteOptions :=
  let opts := metav1.newDeleteOptions in
  let opts :=
    if (0 <=? GracePeriodSeconds opts0)%Z
    then {| metav1.GracePeriodSeconds := Some (GracePeriodSeconds opts0);
            metav1.DryRun := metav1.DryRun opts |}
    else opts in
  if DryRun opts0
  then {| metav1.GracePeriodSeconds := metav1.GracePeriodSeconds opts;
          metav1.DryRun := [metav1.DryRunAll] |}
  else opts.

Definition verbOf (opts0 : EvictOptions) : string :=
  if DryRun opts0 then "evicted (dry-run)" else "evicted".

(** [fmt.Sprintf("pod %s/%s %s\n", pod.Namespace, pod.Name, verb)] *)
Definition evictedLine (pod : Pod) (verb : string) : string :=
  "pod " +:+ metav1.Namespace (PodMeta pod) +:+ "/" +:+
  metav1.Name (PodMeta pod) +:+ " " +:+ verb +:+ nl.

Section cmd.
Context `{lib : Apimachinery} (env : Env).

Definition evictGroupVersion : M schema.GroupVersion :=
  r ← send (ReqDiscovery "v1") (fun l => serverResources env l "v1");
  match r with
  | inl _ => mret schema.zero
  | inr resources => mret (scanAPIResources resources)
  end.

Definition NewEvictClient : M Client :=
  gv ← evictGroupVersion;
  if decide (gv = policyv1.SchemeGroupVersion)
  then mret ClientV1
  else mret ClientV1beta1.

(** [ClientV1.EvictPod] and [ClientV1beta1.EvictPod].  The two bodies
    differ in the API they post to only.  [RunEvict] passes its delete
    options as a third argument; the methods of evict_api.go build the
    eviction from the pod alone and post it under [context.TODO()]. *)
Definition EvictPod (c : Client) (ctx : Context) (pod : Pod)
    (opts : metav1.DeleteOptions) : M unit :=
  let eviction :=
    {| ObjectMeta := {| metav1.Name := metav1.Name (PodMeta pod);
                        metav1.Namespace := metav1.Namespace (PodMeta pod) |};
       DeleteOptions := None |} in
  let namespace := metav1.Namespace (ObjectMeta eviction) in
  r ← send (ReqEvict c context_TODO namespace eviction)
           (fun l => serverEvict env l c context_TODO namespace eviction);
  check r.

(** The five cases of [selectorsForObject] that translate a
    [*metav1.LabelSelector]. *)
Definition selectorsOfLabelSelector (namespace : string)
    (selector : option metav1.LabelSelector)
  : error + (string * option labels_Selector * option fields_Selector) :=
  match LabelSelectorAsSelector selector with
  | inl err => inl ("invalid label selector: " +:+ err)
  | inr labelsel => inr (namespace, Some labelsel, None)
  end.

Definition selectorsForObject (object : Object)
  : error + (string * option labels_Selector * option fields_Selector) :=
  match object with
  | ReplicaSet t selector => selectorsOfLabelSelector (metav1.Namespace t) selector
  | ReplicationController t selector =>
      inr (metav1.Namespace t, Some (labels_SelectorFromSet selector), None)
  | StatefulSet t selector => selectorsOfLabelSelector (metav1.Namespace t) selector
  | DaemonSet t selector => selectorsOfLabelSelector (metav1.Namespace t) selector
  | Deployment t selector => selectorsOfLabelSelector (metav1.Namespace t) selector
  | Job t selector => selectorsOfLabelSelector (metav1.Namespace t) selector
  | Service t selector =>
      if match selector with None => true | Some m => (size m =? 0)%nat end
      then inl ("invalid service '" +:+ metav1.Name t +:+
                "': Service is defined without a selector")
      else inr (metav1.Namespace t, Some (labels_SelectorFromSet selector), None)
  | Node t =>
      inr (metav1.NamespaceAll, None,
           Some (fields_SelectorFromSet (Some {[ "spec.nodeName" := metav1.Name t ]})))
  | _ => inl ("selector for " +:+ goTypeName object +:+ " not implemented")
  end.

(** The [metav1.ListOptions] that [podsForObject] fills in. *)
Definition listOptionsOf (labelsel : option labels_Selector)
    (fieldsel : option fields_Selector) : metav1.ListOptions :=
  {| metav1.LabelSelector_ :=
       match labelsel with Some s => labels_String s | None => "" end;
     metav1.FieldSelector :=
       match fieldsel with Some s => fields_String s | None => "" end |}.

Definition podsForObject (ctx : Context) (object : Object) : M (list Pod) :=
  match object with
  | PodList Items => mret Items
  | APod t => mret [t]
  | _ =>
      match selectorsForObject object with
      | inl err =>
          fail ("cannot get the logs from " +:+ goTypeName object +:+ ": " +:+ err)
      | inr (namespace, labelsel, fieldsel) =>
          let opt := listOptionsOf labelsel fieldsel in
          r ← send (ReqList ctx namespace opt)
                   (fun l => serverList env l ctx namespace opt);
          try r
      end
  end.

(** The [for _, pod := range pods] loop of [RunEvict]. *)
Fixpoint evictPods (eviction : Client) (ctx : Context)
    (opts : metav1.DeleteOptions) (verb : string) (pods : list Pod) : M unit :=
  match pods with
  | [] => mret tt
  | pod :: rest =>
      EvictPod eviction ctx pod opts;;
      Fprintf_Out (evictedLine pod verb);;
      evictPods eviction ctx opts verb rest
  end.

(** A nil [o.Object] reaches the [default] case of both type switches;
    [%T] prints it as [<nil>]. *)
Definition objectOf (opts0 : EvictOptions) : Object :=
  match Object_ opts0 with
  | Some object => object
  | None => OtherObject "<nil>"
  end.

Definition RunEvict (ctx : Context) : M unit :=
  check (toRESTConfig env);;
  check (newForConfig env);;
  opts0 ← getOptions;
  pods ← podsForObject ctx (objectOf opts0);
  let opts := deleteOptionsOf opts0 in
  let verb := verbOf opts0 in
  eviction ← NewEvictClient;
  evictPods eviction ctx opts verb pods.

Definition builderOf (namespace : string) (opts0 : EvictOptions) : Builder :=
  {| NamespaceParam := namespace;
     ResourceNames :=
       if String.eqb (ResourceArg opts0) "" then None
       else Some ("pods", ResourceArg opts0);
     ResourceTypes :=
       if String.eqb (Selector opts0) "" then None else Some "pods";
     LabelSelectorParam :=
       if String.eqb (Selector opts0) "" then None else Some (Selector opts0) |}.

Definition isNode (object : Object) : bool :=
  match object with Node _ => true | _ => false end.

Definition Complete (args : list string) : M unit :=
  opts0 ← getOptions;
  match args with
  | [] =>
      if (String.length (Selector opts0) =? 0)%nat then fail evictUsageErrStr else mret tt
  | [arg] =>
      modifyOptions (setResourceArg arg);;
      if negb (String.length (Selector opts0) =? 0)%nat
      then fail "only a selector (-l) or a resource name is allowed"
      else mret tt
  | _ => fail evictUsageErrStr
  end;;
  '(namespace, namespaceOverwride) ← try (kubeconfigNamespace env);
  opts0 ← getOptions;
  let b := builderOf namespace opts0 in
  r ← send (ReqInfos b) (fun _ => builderInfos env b);
  infos ← try r;
  (if String.eqb (Selector opts0) "" && negb (length infos =? 1)%nat
   then fail "expected a resource" else mret tt);;
  object ← match infos with
           | [] => panic "index out of range [0] with length 0"
           | object :: _ => mret object
           end;
  modifyOptions (setObject object);;
  (if negb (String.eqb (Selector opts0) "")
   then match object with
        | PodList Items =>
            if (length Items =? 0)%nat
            then fail ("no resources found in " +:+ namespace +:+ " namespace")
            else mret tt
        | _ => panic ("interface conversion: runtime.Object is " +:+
                      goTypeName object +:+ ", not *v1.PodList")
        end
   else mret tt);;
  (if namespaceOverwride && isNode object
   then fail "--namespace should not be specified with node target"
   else mret tt);;
  mret tt.

(** The [RunE] closure of [NewCmdEvict]; [ctx] is [c.Context()]. *)
Definition RunE (ctx : Context) (args : list string) : M unit :=
  Complete args;;
  RunEvict ctx;;
  mret tt.

End cmd.

(** ** Concrete environments, to run the embedding *)

(** An instance of the selector library that keeps no structure: a
    selector is the text it prints as.  Equality requirements print as
    [k=v] joined by commas, set-based ones as [k in (a,b)]; an operator
    outside the four known ones is refused. *)
Definition printSet (m : gmap string string) : string :=
  String.concat "," ((fun kv => kv.1 +:+ "=" +:+ kv.2) <$> map_to_list m).

Definition printRequirement (r : metav1.LabelSelectorRequirement) : error + string :=
  let values := "(" +:+ String.concat "," (metav1.Values r) +:+ ")" in
  if String.eqb (metav1.Operator r) "In" then inr (metav1.Key r +:+ " in " +:+ values)
  else if String.eqb (metav1.Operator r) "NotIn" then inr (metav1.Key r +:+ " notin " +:+ values)
  else if String.eqb (metav1.Operator r) "Exists" then inr (metav1.Key r)
  else if String.eqb (metav1.Operator r) "DoesNotExist" then inr ("!" +:+ metav1.Key r)
  else inl (dquote +:+ metav1.Operator r +:+ dquote +:+
            " is not a valid label selector operator").

Fixpoint printRequirements (rs : list metav1.LabelSelectorRequirement) : error + list string :=
  match rs with
  | [] => inr []
  | r :: rest =>
      match printRequirement r, printRequirements rest with
      | inl e, _ => inl e
      | _, inl e => inl e
      | inr s, inr ss => inr (s :: ss)
      end
  end.

#[local] Instance textSelectors : Apimachinery :=
  {| labels_Selector := string;
     fields_Selector := string;
     LabelSelectorAsSelector := fun ps =>
       match ps with
       | None => inr ""
       | Some ls =>
           match printRequirements (metav1.MatchExpressions ls) with
           | inl e => inl e
           | inr ss =>
               inr (String.concat ","
                      (((fun kv => kv.1 +:+ "=" +:+ kv.2) <$>
                          map_to_list (metav1.MatchLabels ls)) ++ ss))
           end
       end;
     labels_SelectorFromSet := fun s =>
       match s with None => "" | Some m => printSet m end;
     fields_SelectorFromSet := fun s =>
       match s with None => "" | Some m => printSet m end;
     labels_String := fun s => s;
     fields_String := fun s => s |}.

Definition initial (opts : EvictOptions) : State := {| o := opts; log := [] |}.

(** A cluster in which every call succeeds: the kubeconfig names the
    namespace [default], the builder finds [objects], a list query returns
    [pods], discovery returns [resources], and an eviction is refused for
    the pods named in [refused] only. *)
Definition refusal (refused : list string) (eviction : Eviction) : option error :=
  if bool_decide (metav1.Name (ObjectMeta eviction) ∈ refused)
  then Some ("Cannot evict pod as it would violate the pod's disruption budget.")
  else None.

Definition cluster (objects : list Object) (pods : list Pod)
    (resources : list metav1.APIResource) (refused : list string) : Env :=
  {| kubeconfigNamespace := inr ("default", false);
     builderInfos := fun _ => inr objects;
     toRESTConfig := None;
     newForConfig := None;
     serverList := fun _ _ _ _ => inr pods;
     serverResources := fun _ _ => inr resources;
     serverEvict := fun _ _ _ _ eviction => refusal refused eviction |}.

(** The entry for the eviction subresource in the discovery document of
    the core group, as a cluster serving policy/v1 publishes it. *)
Definition evictionResource (version : string) : metav1.APIResource :=
  {| metav1.rName := "pods/eviction"; metav1.rKind := "Eviction";
     metav1.rGroup := "policy"; metav1.rVersion := version |}.

Definition podsResource : metav1.APIResource :=
  {| metav1.rName := "pods"; metav1.rKind := "Pod";
     metav1.rGroup := ""; metav1.rVersion := "" |}.

Definition withSelector (selector : string) (opts : EvictOptions) : EvictOptions :=
  {| GracePeriodSeconds := GracePeriodSeconds opts; DryRun := DryRun opts;
     ResourceArg := ResourceArg opts; Selector := selector;
     Object_ := Object_ opts; Out := Out opts |}.


Definition nginx3 : list Pod :=
  [mkPod "default" "nginx-1"; mkPod "default" "nginx-2"; mkPod "default" "nginx-3"].

Definition withObject (object : Object) (opts : EvictOptions) : EvictOptions :=
  setObject object opts.

Definition nginx : Pod := mkPod "default" "nginx".

Definition nginxDeployment : Object :=
  Deployment {| metav1.Name := "nginx"; metav1.Namespace := "default" |}
    (Some {| metav1.MatchLabels := {[ "app" := "nginx" ]};
             metav1.MatchExpressions := [] |}).

(** Discovery documents: of a cluster that serves policy/v1, and one in
    which a policy/v1beta1 entry for the subresource precedes the policy/v1
    entry. *)
Definition stableDiscovery : list metav1.APIResource :=
  [podsResource; evictionResource "v1"].

Definition mixedDiscovery : list metav1.APIResource :=
  [podsResource; evictionResource "v1beta1"; evictionResource "v1"].

(** A server that honours the context of a request: under a context that
    is done, a list query or an eviction is answered [context canceled]. *)
Definition honouring (env : Env) : Env :=
  {| kubeconfigNamespace := kubeconfigNamespace env;
     builderInfos := builderInfos env;
     toRESTConfig := toRESTConfig env;
     newForConfig := newForConfig env;
     serverList := fun l ctx namespace opt =>
       if ctxDone ctx then inl "context canceled"
       else serverList env l ctx namespace opt;
     serverResources := serverResources env;
     serverEvict := fun l c ctx namespace eviction =>
       if ctxDone ctx then Some "context canceled"
       else serverEvict env l c ctx namespace eviction |}.

(** A caller's context whose cancel function has been called. *)
Definition canceled : Context := context_WithCancel context_Background true.

(** Variants of an environment: another answer of the kubeconfig loader,
    of the fetch, or of [ToRESTConfig]. *)
Definition withKubeconfig (r : error + (string * bool)) (env : Env) : Env :=
  {| kubeconfigNamespace := r;
     builderInfos := builderInfos env;
     toRESTConfig := toRESTConfig env;
     newForConfig := newForConfig env;
     serverList := serverList env;
     serverResources := serverResources env;
     serverEvict := serverEvict env |}.

Definition withInfos (r : error + list Object) (env : Env) : Env :=
  {| kubeconfigNamespace := kubeconfigNamespace env;
     builderInfos := fun _ => r;
     toRESTConfig := toRESTConfig env;
     newForConfig := newForConfig env;
     serverList := serverList env;
     serverResources := serverResources env;
     serverEvict := serverEvict env |}.

Definition withRESTConfig (r : option error) (env : Env) : Env :=
  {| kubeconfigNamespace := kubeconfigNamespace env;
     builderInfos := builderInfos env;
     toRESTConfig := r;
     newForConfig := newForConfig env;
     serverList := serverList env;
     serverResources := serverResources env;
     serverEvict := serverEvict env |}.

Definition worker1 : Object :=
  Node {| metav1.Name := "worker-1"; metav1.Namespace := "" |}.

(** A cluster that holds the pod [default/nginx] and answers the fetch
    with it, and the state of a fresh command on it. *)
Definition podCluster : Env := cluster [APod nginx] [] stableDiscovery [].

Definition fresh : State := initial NewEvictOptions.

(** The state of a run on the pod list [nginx3]. *)
Definition listed : State := initial (withObject (PodList nginx3) NewEvictOptions).

Definition webService (selector : option (gmap string string)) : Object :=
  Service {| metav1.Name := "web"; metav1.Namespace := "default" |} selector.

(** ** Vocabulary of the statements *)

(** The requests a computation sends when started in [st]: what it adds
    to the log. *)
Definition sent {A : Type} (m : M A) (st : State) : list Request :=
  drop (length (log st)) (log (m st).2).

(** The texts a computation writes to [o.Out] when started in [st]. *)
Definition output {A : Type} (m : M A) (st : State) : list string :=
  drop (length (Out (o st))) (Out (o (m st).2)).

Definition isDiscovery (req : Request) : bool :=
  match req with ReqDiscovery _ => true | _ => false end.

Definition isEvict (req : Request) : bool :=
  match req with ReqEvict _ _ _ _ => true | _ => false end.

(** The test of the loop of [evictGroupVersion] on one entry. *)
Definition isEvictionEntry (resource : metav1.APIResource) : bool :=
  String.eqb (metav1.rName resource) EvictionSubresource
  && String.eqb (metav1.rKind resource) EvictionKind
  && negb (String.eqb (metav1.rGroup resource) "")
  && negb (String.eqb (metav1.rVersion resource) "").

Definition groupVersionOf (resource : metav1.APIResource) : schema.GroupVersion :=
  {| schema.Group := metav1.rGroup resource;
     schema.Version := metav1.rVersion resource |}.

(** The eviction request for a pod as [EvictPod] posts it, and the
    server's answer to it after the requests of [l]. *)
Definition evictionOf (pod : Pod) : Eviction :=
  {| ObjectMeta := {| metav1.Name := metav1.Name (PodMeta pod);
                      metav1.Namespace := metav1.Namespace (PodMeta pod) |};
     DeleteOptions := None |}.

Definition evictRequest (c : Client) (pod : Pod) : Request :=
  ReqEvict c context_TODO (metav1.Namespace (PodMeta pod)) (evictionOf pod).

Definition evictAnswer (env : Env) (l : list Request) (c : Client) (pod : Pod)
  : option error :=
  serverEvict env l c context_TODO (metav1.Namespace (PodMeta pod)) (evictionOf pod).

(** The group and version that discovery yields after the requests [l]. *)
Definition discovered (env : Env) (l : list Request) : schema.GroupVersion :=
  match serverResources env l "v1" with
  | inl _ => schema.zero
  | inr resources => scanAPIResources resources
  end.

Definition clientFor (gv : schema.GroupVersion) : Client :=
  if decide (gv = policyv1.SchemeGroupVersion) then ClientV1 else ClientV1beta1.

(** The lines the loop of [RunEvict] writes for [pods]. *)
Definition linesOf (verb : string) (pods : list Pod) : list string :=
  (fun pod => evictedLine pod verb) <$> pods.

(** The seven controller kinds with the namespace of the object; [None]
    for every other object. *)
Definition controllerNamespace (object : Object) : option string :=
  match object with
  | ReplicaSet t _ | ReplicationController t _ | StatefulSet t _
  | DaemonSet t _ | Deployment t _ | Job t _ | Service t _ =>
      Some (metav1.Namespace t)
  | _ => None
  end.

(** How many discovery queries a list of requests holds. *)
Definition discoveries (l : list Request) : nat :=
  length (List.filter isDiscovery l).

(** The claim of the specification on the negotiation, in its words: the
    discovery response holds an entry named [pods/eviction] of kind
    [Eviction] whose group and version are not empty and are the stable
    pair. *)
Definition holdsStableEviction (resources : list metav1.APIResource) : Prop :=
  exists resource,
    resource ∈ resources /\
    metav1.rName resource = EvictionSubresource /\
    metav1.rKind resource = EvictionKind /\
    metav1.rGroup resource <> "" /\
    metav1.rVersion resource <> "" /\
    groupVersionOf resource = policyv1.SchemeGroupVersion.

Definition isList (req : Request) : bool :=
  match req with ReqList _ _ _ => true | _ => false end.

(** The objects [podsForObject] returns without a query. *)
Definition isPods (object : Object) : bool :=
  match object with PodList _ | APod _ => true | _ => false end.

Definition isPodList (object : Object) : bool :=
  match object with PodList _ => true | _ => false end.

(** The [*metav1.LabelSelector] of the five kinds that carry one. *)
Definition labelSelectorOf (object : Object) : option (option metav1.LabelSelector) :=
  match object with
  | ReplicaSet _ s | StatefulSet _ s | DaemonSet _ s | Deployment _ s | Job _ s =>
      Some s
  | _ => None
  end.

(** The list query [podsForObject] sends for an object, if any. *)
Definition listQueryOf `{lib : Apimachinery} (ctx : Context) (object : Object)
  : list Request :=
  match object with
  | PodList _ | APod _ => []
  | _ =>
      match selectorsForObject object with
      | inl _ => []
      | inr (namespace, labelsel, fieldsel) =>
          [ReqList ctx namespace (listOptionsOf labelsel fieldsel)]
      end
  end.

(** The arguments and the selector pass the switch of [Complete]: one of
    the two is given, and [opts1] is the receiver after the switch. *)
Definition passesUsage (args : list string) (opts0 opts1 : EvictOptions) : Prop :=
  (args = [] /\ Selector opts0 <> "" /\ opts1 = opts0) \/
  (exists arg, args = [arg] /\ Selector opts0 = "" /\ opts1 = setResourceArg arg opts0).

(** ** Running the monad *)

Ltac run :=
  unfold mbind, M_bind, mret, M_ret, fail, panic, try, check, send,
    getOptions, modifyOptions, Fprintf_Out in *; cbn [fst snd o log] in *.

Lemma sent_app {A : Type} (m : M A) (st : State) (l : list Request) :
  log (m st).2 = log st ++ l -> sent m st = l.
Proof. intros E. unfold sent. rewrite E. apply drop_app_length. Qed.

Lemma output_app {A : Type} (m : M A) (st : State) (l : list string) :
  Out (o (m st).2) = Out (o st) ++ l -> output m st = l.
Proof. intros E. unfold output. rewrite E. apply drop_app_length. Qed.

Lemma written_nil (opts : EvictOptions) : written [] opts = opts.
Proof. destruct opts. unfold written. cbn. by rewrite app_nil_r. Qed.

Lemma written_written (a b : list string) (opts : EvictOptions) :
  written b (written a opts) = written (a ++ b) opts.
Proof. unfold written. cbn. by rewrite app_assoc. Qed.

Lemma string_length_0 (s : string) : (String.length s =? 0)%nat = String.eqb s "".
Proof. by destruct s. Qed.

Lemma string_length_pos (s : string) : (0 <? String.length s)%nat = negb (String.eqb s "").
Proof. by destruct s. Qed.

Section facts.
Context `{lib : Apimachinery} (env : Env).

(** *** The negotiation *)

Lemma scanAPIResources_find (resources : list metav1.APIResource) :
  scanAPIResources resources =
    match List.find isEvictionEntry resources with
    | Some resource => groupVersionOf resource
    | None => schema.zero
    end.
Proof.
  induction resources as [|r rs IH]; [done|].
  cbn [scanAPIResources List.find]. unfold isEvictionEntry at 1.
  rewrite !string_length_pos. by destruct (_ && _).
Qed.

Lemma NewEvictClient_run (st : State) :
  NewEvictClient env st =
    (Ok (clientFor (discovered env (log st))),
     {| o := o st; log := log st ++ [ReqDiscovery "v1"] |}).
Proof.
  unfold NewEvictClient, evictGroupVersion, clientFor, discovered. run.
  destruct (serverResources env (log st) "v1") as [e|rs]; cbn;
    by destruct (decide _).
Qed.

(** *** One eviction and the loop *)

Lemma EvictPod_run (c : Client) (ctx : Context) (pod : Pod)
    (opts : metav1.DeleteOptions) (st : State) :
  EvictPod env c ctx pod opts st =
    (match evictAnswer env (log st) c pod with
     | Some e => Err e
     | None => Ok tt
     end,
     {| o := o st; log := log st ++ [evictRequest c pod] |}).
Proof.
  unfold EvictPod, evictAnswer, evictRequest, evictionOf. run.
  by destruct (serverEvict _ _ _ _ _ _).
Qed.

Lemma evictPods_cons (c : Client) (ctx : Context) (opts : metav1.DeleteOptions)
    (verb : string) (pod : Pod) (rest : list Pod) (st : State) :
  evictPods env c ctx opts verb (pod :: rest) st =
    match evictAnswer env (log st) c pod with
    | Some e => (Err e, {| o := o st; log := log st ++ [evictRequest c pod] |})
    | None =>
        evictPods env c ctx opts verb rest
          {| o := written [evictedLine pod verb] (o st);
             log := log st ++ [evictRequest c pod] |}
    end.
Proof.
  cbn [evictPods]. unfold mbind at 1, M_bind at 1. rewrite EvictPod_run.
  destruct (evictAnswer _ _ _ _); [done|]. by run.
Qed.

(** The loop stops at the first refused eviction: the pods before it have
    their requests and their lines, the refused one its request only, the
    pods after it nothing. *)
Lemma evictPods_stops (c : Client) (ctx : Context) (opts : metav1.DeleteOptions)
    (verb : string) (pod : Pod) (post : list Pod) (e : error) :
  forall (pre : list Pod) (st : State),
    (forall i p, pre !! i = Some p ->
       evictAnswer env (log st ++ (evictRequest c <$> take i pre)) c p = None) ->
    evictAnswer env (log st ++ (evictRequest c <$> pre)) c pod = Some e ->
    evictPods env c ctx opts verb (pre ++ pod :: post) st =
      (Err e, {| o := written (linesOf verb pre) (o st);
                 log := log st ++ (evictRequest c <$> pre ++ [pod]) |}).
Proof.
  induction pre as [|p pre IH]; intros st Hpre Hpod.
  - cbn in Hpod. rewrite app_nil_r in Hpod.
    cbn [app]. rewrite evictPods_cons, Hpod. cbn. by rewrite written_nil.
  - cbn [app]. rewrite evictPods_cons.
    pose proof (Hpre 0 p eq_refl) as H0. cbn in H0. rewrite app_nil_r in H0.
    rewrite H0. rewrite IH; cbn [o log].
    + rewrite written_written. cbn. by rewrite <- !app_assoc.
    + intros i q Hq. rewrite <- app_assoc. apply (Hpre (S i) q Hq).
    + rewrite <- app_assoc. exact Hpod.
Qed.

(** When no eviction is refused, every pod gets its request and its line. *)
Lemma evictPods_all (c : Client) (ctx : Context) (opts : metav1.DeleteOptions)
    (verb : string) :
  forall (pods : list Pod) (st : State),
    (forall i p, pods !! i = Some p ->
       evictAnswer env (log st ++ (evictRequest c <$> take i pods)) c p = None) ->
    evictPods env c ctx opts verb pods st =
      (Ok tt, {| o := written (linesOf verb pods) (o st);
                 log := log st ++ (evictRequest c <$> pods) |}).
Proof.
  induction pods as [|p pods IH]; intros st Hall.
  - cbn. rewrite written_nil, app_nil_r. by destruct st.
  - rewrite evictPods_cons.
    pose proof (Hall 0 p eq_refl) as H0. cbn in H0. rewrite app_nil_r in H0.
    rewrite H0. rewrite IH; cbn [o log].
    + rewrite written_written. cbn. by rewrite <- !app_assoc.
    + intros i q Hq. rewrite <- app_assoc. apply (Hall (S i) q Hq).
Qed.

(** Whatever the server answers, the loop sends the requests of a prefix
    of the pods, in their order, and writes the lines of a prefix. *)
Lemma evictPods_prefix (c : Client) (ctx : Context) (opts : metav1.DeleteOptions)
    (verb : string) :
  forall (pods : list Pod) (st : State),
    exists n k,
      log (evictPods env c ctx opts verb pods st).2 =
        log st ++ (evictRequest c <$> take n pods) /\
      o (evictPods env c ctx opts verb pods st).2 =
        written (linesOf verb (take k pods)) (o st).
Proof.
  induction pods as [|p pods IH]; intros st.
  - exists 0, 0. cbn. by rewrite app_nil_r, written_nil.
  - rewrite evictPods_cons. destruct (evictAnswer _ _ _ _) as [e|].
    + exists 1, 0. cbn. by rewrite written_nil.
    + destruct (IH {| o := written [evictedLine p verb] (o st);
                      log := log st ++ [evictRequest c p] |}) as (n & k & Hl & Ho).
      exists (S n), (S k). rewrite Hl, Ho. cbn [o log].
      rewrite written_written. cbn. by rewrite <- app_assoc.
Qed.

(** *** Resolution *)

Lemma podsForObject_run (ctx : Context) (object : Object) (st : State) :
  podsForObject env ctx object st =
    match object with
    | PodList Items => (Ok Items, st)
    | APod t => (Ok [t], st)
    | _ =>
        match selectorsForObject object with
        | inl err =>
            (Err ("cannot get the logs from " +:+ goTypeName object +:+ ": " +:+ err), st)
        | inr (namespace, labelsel, fieldsel) =>
            (match serverList env (log st) ctx namespace
                     (listOptionsOf labelsel fieldsel) with
             | inl e => Err e
             | inr pods => Ok pods
             end,
             {| o := o st;
                log := log st ++ [ReqList ctx namespace (listOptionsOf labelsel fieldsel)] |})
        end
    end.
Proof.
  unfold podsForObject.
  destruct object; try reflexivity;
    (destruct (selectorsForObject _) as [err|[[namespace labelsel] fieldsel]];
     [reflexivity|]; run; by destruct (serverList _ _ _ _ _)).
Qed.

Lemma podsForObject_o (ctx : Context) (object : Object) (st : State) :
  o (podsForObject env ctx object st).2 = o st.
Proof.
  rewrite podsForObject_run.
  destruct object; try reflexivity;
    by destruct (selectorsForObject _) as [err|[[namespace labelsel] fieldsel]].
Qed.

(** What [podsForObject] sends: nothing, or one list query. *)
Lemma podsForObject_sent (ctx : Context) (object : Object) (st : State) :
  log (podsForObject env ctx object st).2 =
    log st ++
    match object with
    | PodList _ | APod _ => []
    | _ =>
        match selectorsForObject object with
        | inl _ => []
        | inr (namespace, labelsel, fieldsel) =>
            [ReqList ctx namespace (listOptionsOf labelsel fieldsel)]
        end
    end.
Proof.
  rewrite podsForObject_run.
  destruct object; cbn [snd]; rewrite ?app_nil_r; try reflexivity;
    destruct (selectorsForObject _) as [err|[[namespace labelsel] fieldsel]];
    cbn [snd log]; by rewrite ?app_nil_r.
Qed.

(** *** The run *)

Lemma RunEvict_run (ctx : Context) (st : State) :
  RunEvict env ctx st =
    match toRESTConfig env, newForConfig env with
    | Some e, _ => (Err e, st)
    | None, Some e => (Err e, st)
    | None, None =>
        match podsForObject env ctx (objectOf (o st)) st with
        | (Ok pods, st1) =>
            evictPods env (clientFor (discovered env (log st1))) ctx
              (deleteOptionsOf (o st)) (verbOf (o st)) pods
              {| o := o st1; log := log st1 ++ [ReqDiscovery "v1"] |}
        | (Err e, st1) => (Err e, st1)
        | (Panic msg, st1) => (Panic msg, st1)
        end
    end.
Proof.
  unfold RunEvict. run.
  destruct (toRESTConfig env); [done|]. destruct (newForConfig env); [done|].
  cbn. destruct (podsForObject env ctx (objectOf (o st)) st) as [[pods|e|msg] st1];
    [|done..].
  by rewrite NewEvictClient_run.
Qed.

End facts.

(** ** Selector derivation *)

Section selectors.
Context `{lib : Apimachinery} (env : Env).

Lemma selectorsForObject_exclusive (object : Object) :
  match selectorsForObject object with
  | inr (_, labelsel, fieldsel) => labelsel = None \/ fieldsel = None
  | inl _ => True
  end.
Proof.
  destruct object as [| |t s|t s|t s|t s|t s|t s|t s|t|]; cbn; auto;
    unfold selectorsOfLabelSelector;
    try (destruct (LabelSelectorAsSelector s); auto).
  destruct (match s with Some m => _ | None => _ end); auto.
Qed.

(** C5. [selectorsForObject] never returns a label selector together with
    a field selector, and no list query of [podsForObject] carries both.
    For a node the result is the field selector built from the set
    [spec.nodeName = <the node's name>] with the namespace scope
    [metav1.NamespaceAll] and no label selector, and the list query is made
    over all namespaces with that field selector and an empty label
    selector. *)
Theorem selectors_exclusive :
  (forall object : Object,
     match selectorsForObject object with
     | inr (_, labelsel, fieldsel) => labelsel = None \/ fieldsel = None
     | inl _ => True
     end) /\
  (forall (ctx : Context) (object : Object) (st : State),
     Forall (fun req =>
               match req with
               | ReqList _ _ opt =>
                   metav1.LabelSelector_ opt = "" \/ metav1.FieldSelector opt = ""
               | _ => True
               end)
            (sent (podsForObject env ctx object) st)) /\
  (forall t : metav1.ObjectMeta,
     selectorsForObject (Node t) =
       inr (metav1.NamespaceAll, None,
            Some (fields_SelectorFromSet
                    (Some {[ "spec.nodeName" := metav1.Name t ]})))) /\
  (forall (ctx : Context) (t : metav1.ObjectMeta) (st : State),
     sent (podsForObject env ctx (Node t)) st =
       [ReqList ctx ""
          {| metav1.LabelSelector_ := "";
             metav1.FieldSelector :=
               fields_String
                 (fields_SelectorFromSet
                    (Some {[ "spec.nodeName" := metav1.Name t ]})) |}]).
Proof.
  split; [exact selectorsForObject_exclusive|]. split; [|split].
  - intros ctx object st.
    rewrite (sent_app _ _ _ (podsForObject_sent env ctx object st)).
    pose proof (selectorsForObject_exclusive object) as Hsel.
    destruct object; try (by constructor);
      (destruct (selectorsForObject _) as [err|[[namespace labelsel] fieldsel]];
       [by constructor|]);
      (constructor; [|by constructor]);
      unfold listOptionsOf; cbn; destruct Hsel as [-> | ->]; auto.
  - reflexivity.
  - intros ctx t st. apply sent_app. by rewrite podsForObject_sent.
Qed.


(** C7. A service whose selector map is nil or empty has no selector
    derived: [selectorsForObject] fails with an error that names the
    service, [podsForObject] returns that error (wrapped) without sending a
    list query, and [RunEvict] returns an error with nothing sent and
    nothing written. *)
Theorem service_without_selector (ctx : Context) (t : metav1.ObjectMeta)
    (selector : option (gmap string string)) (st : State) :
  selector = None \/ selector = Some ∅ ->
  selectorsForObject (Service t selector) =
    inl ("invalid service '" +:+ metav1.Name t +:+
         "': Service is defined without a selector") /\
  podsForObject env ctx (Service t selector) st =
    (Err ("cannot get the logs from *v1.Service: invalid service '" +:+
          metav1.Name t +:+ "': Service is defined without a selector"), st) /\
  (Object_ (o st) = Some (Service t selector) ->
   exists e, RunEvict env ctx st = (Err e, st)).
Proof.
  intros Hsel.
  assert (E : selectorsForObject (Service t selector) =
                inl ("invalid service '" +:+ metav1.Name t +:+
                     "': Service is defined without a selector")).
  { by destruct Hsel as [-> | ->]. }
  assert (P : podsForObject env ctx (Service t selector) st =
                (Err ("cannot get the logs from *v1.Service: invalid service '" +:+
                      metav1.Name t +:+
                      "': Service is defined without a selector"), st)).
  { rewrite podsForObject_run, E. reflexivity. }
  split; [exact E|]. split; [exact P|].
  intros Hobj. rewrite RunEvict_run. unfold objectOf. rewrite Hobj, P.
  destruct (toRESTConfig env); [by eexists|].
  destruct (newForConfig env); by eexists.
Qed.

End selectors.

(** ** The eviction loop and the command *)

Section runs.
Context `{lib : Apimachinery} (env : Env).

(** C3. Let the resolved pods be [pre ++ pod :: post], let every eviction
    of [pre] be accepted and the eviction of [pod] be refused with [e].
    Then [RunEvict] returns [e]; after the discovery query the log holds
    the eviction requests of [pre] and of [pod], in that order, and none
    for [post]; and [o.Out] has received one line for each pod of [pre],
    in that order, and nothing else. *)
Theorem RunEvict_short_circuit (ctx : Context) (st st1 : State)
    (pre post : list Pod) (pod : Pod) (e : error) :
  toRESTConfig env = None ->
  newForConfig env = None ->
  podsForObject env ctx (objectOf (o st)) st = (Ok (pre ++ pod :: post), st1) ->
  (forall i p, pre !! i = Some p ->
     evictAnswer env
       (log st1 ++ [ReqDiscovery "v1"] ++
        (evictRequest (clientFor (discovered env (log st1))) <$> take i pre))
       (clientFor (discovered env (log st1))) p = None) ->
  evictAnswer env
    (log st1 ++ [ReqDiscovery "v1"] ++
     (evictRequest (clientFor (discovered env (log st1))) <$> pre))
    (clientFor (discovered env (log st1))) pod = Some e ->
  RunEvict env ctx st =
    (Err e,
     {| o := written (linesOf (verbOf (o st)) pre) (o st);
        log := log st1 ++ [ReqDiscovery "v1"] ++
               (evictRequest (clientFor (discovered env (log st1))) <$> pre ++ [pod]) |}).
Proof.
  intros Hrest Hnew Hpods Hpre Hpod.
  rewrite RunEvict_run, Hrest, Hnew, Hpods.
  pose proof (podsForObject_o env ctx (objectOf (o st)) st) as Ho.
  rewrite Hpods in Ho. cbn in Ho.
  rewrite (evictPods_stops env _ ctx _ _ pod post e pre); cbn [o log].
  - rewrite Ho. by rewrite <- app_assoc.
  - intros i p Hi. rewrite <- app_assoc. by apply Hpre.
  - rewrite <- app_assoc. exact Hpod.
Qed.

(** C10. With no positional argument and no selector, with one positional
    argument and a selector, or with more than one positional argument,
    [Complete] fails with a usage error, and so does the command: nothing
    has been sent to the cluster and nothing has been written. *)
Theorem usage_errors_before_any_query (ctx : Context) (args : list string)
    (st : State) :
  (args = [] /\ Selector (o st) = "") \/
  (length args = 1 /\ Selector (o st) <> "") \/
  1 < length args ->
  exists e,
    (e = evictUsageErrStr \/
     e = "only a selector (-l) or a resource name is allowed") /\
    (Complete env args st).1 = Err e /\
    (RunE env ctx args st).1 = Err e /\
    log (RunE env ctx args st).2 = log st /\
    Out (o (RunE env ctx args st).2) = Out (o st) /\
    sent (RunE env ctx args) st = [] /\
    output (RunE env ctx args) st = [].
Proof.
  intros Hargs.
  assert (H : exists e st',
             (e = evictUsageErrStr \/
              e = "only a selector (-l) or a resource name is allowed") /\
             Complete env args st = (Err e, st') /\
             log st' = log st /\ Out (o st') = Out (o st)).
  { unfold Complete. run. rewrite !string_length_0.
    destruct Hargs as [[-> Hsel]|[[Hlen Hsel]|Hlen]].
    - rewrite Hsel. cbn. eauto 10.
    - destruct args as [|arg [|? ?]]; try discriminate Hlen.
      apply String.eqb_neq in Hsel. rewrite Hsel. cbn. eauto 10.
    - destruct args as [|arg [|arg' rest]]; cbn in Hlen; try lia.
      cbn. eauto 10. }
  destruct H as (e & st' & He & HC & Hlog & Hout).
  assert (HR : RunE env ctx args st = (Err e, st')).
  { unfold RunE. unfold mbind at 1, M_bind at 1. by rewrite HC. }
  exists e. rewrite HC, HR. cbn [fst snd].
  repeat split; try done.
  - apply sent_app. rewrite HR. cbn. by rewrite Hlog, app_nil_r.
  - apply output_app. rewrite HR. cbn. by rewrite Hout, app_nil_r.
Qed.

Lemma podsForObject_pre (ctx : Context) (object : Object) (st : State) :
  exists pre,
    log (podsForObject env ctx object st).2 = log st ++ pre /\
    Forall (fun req => isDiscovery req = false /\ isEvict req = false) pre.
Proof.
  eexists. split; [apply podsForObject_sent|].
  destruct object; try (by constructor);
    destruct (selectorsForObject _) as [err|[[namespace labelsel] fieldsel]];
    by repeat constructor.
Qed.

(** The requests of a run: what the resolution sends, then, when the pods
    have been resolved, one discovery query followed by eviction requests
    only, all of them through the client that discovery selected.  The
    output is the lines of some of the pods. *)
Lemma RunEvict_shape (ctx : Context) (st : State) :
  exists pre evs,
    log (RunEvict env ctx st).2 = log st ++ pre ++ evs /\
    Forall (fun req => isDiscovery req = false /\ isEvict req = false) pre /\
    (evs = [] \/
     exists pods,
       evs = ReqDiscovery "v1" ::
             (evictRequest (clientFor (discovered env (log st ++ pre))) <$> pods)) /\
    exists pods',
      o (RunEvict env ctx st).2 = written (linesOf (verbOf (o st)) pods') (o st).
Proof.
  rewrite RunEvict_run.
  assert (Hstop : forall r : Result unit,
            exists pre evs,
              log (r, st).2 = log st ++ pre ++ evs /\
              Forall (fun req => isDiscovery req = false /\ isEvict req = false) pre /\
              (evs = [] \/
               exists pods,
                 evs = ReqDiscovery "v1" ::
                       (evictRequest (clientFor (discovered env (log st ++ pre))) <$> pods)) /\
              exists pods',
                o (r, st).2 = written (linesOf (verbOf (o st)) pods') (o st)).
  { intros r. exists [], []. cbn. rewrite app_nil_r.
    repeat split; [constructor|by left|]. exists []. by rewrite written_nil. }
  destruct (toRESTConfig env); [apply Hstop|].
  destruct (newForConfig env); [apply Hstop|].
  destruct (podsForObject_pre ctx (objectOf (o st)) st) as (pre & Hlog & Hpre).
  pose proof (podsForObject_o env ctx (objectOf (o st)) st) as Ho.
  destruct (podsForObject env ctx (objectOf (o st)) st) as [[pods|e|msg] st1];
    cbn [snd] in Hlog, Ho.
  - destruct (evictPods_prefix env (clientFor (discovered env (log st1))) ctx
                (deleteOptionsOf (o st)) (verbOf (o st)) pods
                {| o := o st1; log := log st1 ++ [ReqDiscovery "v1"] |})
      as (n & k & Hl & Hw).
    exists pre, (ReqDiscovery "v1" ::
                 (evictRequest (clientFor (discovered env (log st1))) <$> take n pods)).
    rewrite Hl, Hw. cbn [o log]. rewrite Hlog, Ho, <- !app_assoc.
    repeat split; [done|right; by eexists|by eexists].
  - exists pre, []. cbn [snd]. rewrite Hlog, Ho, app_nil_r.
    repeat split; [done|by left|]. exists []. by rewrite written_nil.
  - exists pre, []. cbn [snd]. rewrite Hlog, Ho, app_nil_r.
    repeat split; [done|by left|]. exists []. by rewrite written_nil.
Qed.

(** A property of requests that holds of every request that is not an
    eviction, and of every eviction request [EvictPod] builds, holds of
    all the requests of a run. *)
Lemma RunEvict_sent_Forall (P : Request -> Prop) (ctx : Context) (st : State) :
  (forall req, isEvict req = false -> P req) ->
  (forall c pod, P (evictRequest c pod)) ->
  Forall P (sent (RunEvict env ctx) st).
Proof.
  intros Hother Hevict.
  destruct (RunEvict_shape ctx st) as (pre & evs & Hlog & Hpre & Hevs & _).
  rewrite (sent_app _ _ _ Hlog). apply Forall_app. split.
  - eapply Forall_impl; [exact Hpre|]. intros req [_ Hreq]. by apply Hother.
  - destruct Hevs as [-> | [pods ->]]; [constructor|].
    constructor; [by apply Hother|].
    apply Forall_fmap, Forall_forall. intros pod _. apply Hevict.
Qed.

Lemma discoveries_app (l1 l2 : list Request) :
  discoveries (l1 ++ l2) = discoveries l1 + discoveries l2.
Proof. unfold discoveries. by rewrite List.filter_app, length_app. Qed.

Lemma discoveries_none (l : list Request) :
  Forall (fun req => isDiscovery req = false /\ isEvict req = false) l ->
  discoveries l = 0.
Proof.
  unfold discoveries. induction 1 as [|req l [Hd _] _ IH]; [done|].
  cbn. by rewrite Hd.
Qed.

Lemma discoveries_evictRequest (c : Client) (pods : list Pod) :
  discoveries (evictRequest c <$> pods) = 0.
Proof. unfold discoveries. by induction pods. Qed.

Lemma clientFor_stable (gv : schema.GroupVersion) :
  clientFor gv = ClientV1 <-> gv = policyv1.SchemeGroupVersion.
Proof. unfold clientFor. by destruct (decide _). Qed.

(** C1, as the code has it.  The stable client is selected exactly when
    discovery succeeds and the first entry of the response named
    [pods/eviction], of kind [Eviction] and with a group and a version that
    are not empty, carries the stable pair; in every other case, a failed
    discovery among them, the deprecated client is selected.  A run sends
    at most one discovery query; every eviction request of the run comes
    after it and goes through the client it selected; and a run whose pods
    have been resolved sends exactly one. *)
Theorem negotiation_first_match_once (ctx : Context) (st : State) :
  ((NewEvictClient env st).1 = Ok ClientV1 <->
   exists resources resource,
     serverResources env (log st) "v1" = inr resources /\
     List.find isEvictionEntry resources = Some resource /\
     groupVersionOf resource = policyv1.SchemeGroupVersion) /\
  ((NewEvictClient env st).1 = Ok ClientV1 \/
   (NewEvictClient env st).1 = Ok ClientV1beta1) /\
  sent (NewEvictClient env) st = [ReqDiscovery "v1"] /\
  (exists pre evs,
     sent (RunEvict env ctx) st = pre ++ evs /\
     Forall (fun req => isDiscovery req = false /\ isEvict req = false) pre /\
     (evs = [] \/
      exists pods,
        evs = ReqDiscovery "v1" ::
              (evictRequest (clientFor (discovered env (log st ++ pre))) <$> pods))) /\
  discoveries (sent (RunEvict env ctx) st) <= 1 /\
  (toRESTConfig env = None -> newForConfig env = None ->
   forall pods, (podsForObject env ctx (objectOf (o st)) st).1 = Ok pods ->
   discoveries (sent (RunEvict env ctx) st) = 1).
Proof.
  split; [|split; [|split; [|split; [|split]]]].
  - rewrite NewEvictClient_run. cbn [fst]. split.
    + intros [= Hc]. apply clientFor_stable in Hc. unfold discovered in Hc.
      destruct (serverResources env (log st) "v1") as [e|resources]; [done|].
      rewrite scanAPIResources_find in Hc.
      destruct (List.find isEvictionEntry resources) as [resource|] eqn:Hf; [|done].
      by exists resources, resource.
    + intros (resources & resource & Hr & Hf & Hgv). f_equal.
      apply clientFor_stable. unfold discovered.
      by rewrite Hr, scanAPIResources_find, Hf.
  - rewrite NewEvictClient_run. cbn [fst]. unfold clientFor.
    destruct (decide _); auto.
  - apply sent_app. by rewrite NewEvictClient_run.
  - destruct (RunEvict_shape ctx st) as (pre & evs & Hlog & Hpre & Hevs & _).
    exists pre, evs. by rewrite (sent_app _ _ _ Hlog).
  - destruct (RunEvict_shape ctx st) as (pre & evs & Hlog & Hpre & Hevs & _).
    rewrite (sent_app _ _ _ Hlog), discoveries_app, (discoveries_none pre Hpre).
    destruct Hevs as [-> | [pods ->]]; [cbn; lia|].
    change (ReqDiscovery "v1" :: ?l) with ([ReqDiscovery "v1"] ++ l).
    rewrite discoveries_app, discoveries_evictRequest. cbn. lia.
  - intros Hrest Hnew pods Hpods.
    destruct (podsForObject_pre ctx (objectOf (o st)) st) as (pre & Hlog & Hpre).
    assert (Hrun : exists n,
               log (RunEvict env ctx st).2 =
                 log st ++ pre ++ [ReqDiscovery "v1"] ++
                 (evictRequest
                    (clientFor (discovered env (log st ++ pre))) <$> take n pods)).
    { rewrite RunEvict_run, Hrest, Hnew.
      destruct (podsForObject env ctx (objectOf (o st)) st) as [r st1].
      cbn in Hpods, Hlog. subst r.
      destruct (evictPods_prefix env (clientFor (discovered env (log st1))) ctx
                  (deleteOptionsOf (o st)) (verbOf (o st)) pods
                  {| o := o st1; log := log st1 ++ [ReqDiscovery "v1"] |})
        as (n & k & Hl & _).
      exists n. rewrite Hl. cbn [log]. by rewrite Hlog, <- !app_assoc. }
    destruct Hrun as [n Hrun].
    rewrite (sent_app _ _ _ Hrun), !discoveries_app,
      (discoveries_none pre Hpre), discoveries_evictRequest.
    reflexivity.
Qed.

(** C8, as the code has it.  A label-selector invocation whose fetch
    yields a pod list without items fails in [Complete] with
    [no resources found in <namespace> namespace], after the fetch and
    before anything else is sent.  For an object that is resolved by a list
    query, a query that returns no pod makes [RunEvict] return no error:
    it sends the list query and the discovery query, no eviction request,
    and writes nothing. *)
Theorem zero_matches (ctx : Context) (st : State) :
  (forall (namespace : string) (overwride : bool) (rest : list Object),
     Selector (o st) <> "" ->
     kubeconfigNamespace env = inr (namespace, overwride) ->
     builderInfos env (builderOf namespace (o st)) = inr (PodList [] :: rest) ->
     RunE env ctx [] st =
       (Err ("no resources found in " +:+ namespace +:+ " namespace"),
        {| o := setObject (PodList []) (o st);
           log := log st ++ [ReqInfos (builderOf namespace (o st))] |})) /\
  (forall (object : Object) (namespace : string)
          (labelsel : option labels_Selector) (fieldsel : option fields_Selector),
     Object_ (o st) = Some object ->
     toRESTConfig env = None ->
     newForConfig env = None ->
     selectorsForObject object = inr (namespace, labelsel, fieldsel) ->
     serverList env (log st) ctx namespace (listOptionsOf labelsel fieldsel) = inr [] ->
     RunEvict env ctx st =
       (Ok tt,
        {| o := o st;
           log := log st ++ [ReqList ctx namespace (listOptionsOf labelsel fieldsel);
                             ReqDiscovery "v1"] |})).
Proof.
  split.
  - intros namespace overwride rest Hsel Hns Hinfos.
    apply String.eqb_neq in Hsel.
    unfold RunE, Complete. run. rewrite string_length_0, Hsel. cbn.
    rewrite Hns. cbn. rewrite Hinfos. cbn. by rewrite Hsel.
  - intros object namespace labelsel fieldsel Hobj Hrest Hnew Hsel Hlist.
    rewrite RunEvict_run, Hrest, Hnew. unfold objectOf. rewrite Hobj.
    rewrite podsForObject_run, Hsel, Hlist.
    destruct object; try discriminate Hsel; cbn; by rewrite <- app_assoc.
Qed.

End runs.

(** ** What the eviction request carries *)



(** C9 on the code.  Every eviction request of a run is posted under
    [context.TODO()], whatever context the caller passed.  On a server
    that refuses requests under a canceled context, a run started under a
    canceled context therefore evicts every pod of its list, where the
    list query of [podsForObject], which is sent under the caller's
    context, is refused. *)
Theorem eviction_under_context_TODO :
  (forall `{lib : Apimachinery} (env : Env) (ctx : Context) (st : State),
     Forall (fun req =>
               match req with
               | ReqEvict _ ctx' _ _ => ctx' = context_TODO
               | _ => True
               end)
            (sent (RunEvict env ctx) st)) /\
  ctxDone canceled = true /\
  RunEvict (honouring (cluster [] [] stableDiscovery [])) canceled
           (initial (withObject (PodList nginx3) NewEvictOptions)) =
    (Ok tt,
     {| o := written (linesOf "evicted" nginx3)
               (withObject (PodList nginx3) NewEvictOptions);
        log := ReqDiscovery "v1" :: (evictRequest ClientV1 <$> nginx3) |}) /\
  RunEvict (honouring (cluster [] nginx3 stableDiscovery [])) canceled
           (initial (withObject nginxDeployment NewEvictOptions)) =
    (Err "context canceled",
     {| o := withObject nginxDeployment NewEvictOptions;
        log := [ReqList canceled "default"
                  {| metav1.LabelSelector_ := "app=nginx";
                     metav1.FieldSelector := "" |}] |}).
Proof.
  split; [|split; [|split]].
  - intros lib env ctx st. apply RunEvict_sent_Forall; [by intros []|done].
  - reflexivity.
  - vm_compute. reflexivity.
  - vm_compute. reflexivity.
Qed.

(** ** The statements at concrete inputs *)

(** C1, as the specification words it, fails on [mixedDiscovery]: the
    response holds an entry for the subresource with the stable pair, and
    the deprecated client is selected, because an entry with another
    version comes first. *)
Lemma later_stable_entry_is_not_selected :
  holdsStableEviction mixedDiscovery /\
  serverResources (cluster [] [] mixedDiscovery []) [] "v1" = inr mixedDiscovery /\
  (NewEvictClient (cluster [] [] mixedDiscovery []) (initial NewEvictOptions)).1 =
    Ok ClientV1beta1.
Proof.
  split; [|split; reflexivity].
  exists (evictionResource "v1"). split; [|by repeat split].
  unfold mixedDiscovery. set_solver.
Qed.

Lemma negotiation_first_match_once_witness :
  toRESTConfig (cluster [] [] stableDiscovery []) = None /\
  newForConfig (cluster [] [] stableDiscovery []) = None /\
  (podsForObject (cluster [] [] stableDiscovery []) context_Background
     (PodList nginx3) (initial (withObject (PodList nginx3) NewEvictOptions))).1 =
    Ok nginx3 /\
  discoveries
    (sent (RunEvict (cluster [] [] stableDiscovery []) context_Background)
          (initial (withObject (PodList nginx3) NewEvictOptions))) = 1.
Proof.
  split; [reflexivity|]. split; [reflexivity|]. split; [reflexivity|].
  apply (proj2 (proj2 (proj2 (proj2 (proj2
           (negotiation_first_match_once (cluster [] [] stableDiscovery [])
              context_Background
              (initial (withObject (PodList nginx3) NewEvictOptions))))))))
    with (pods := nginx3); reflexivity.
Defined.

Lemma RunEvict_short_circuit_witness :
  RunEvict (cluster [] [] stableDiscovery ["nginx-2"]) context_Background
           (initial (withObject (PodList nginx3) NewEvictOptions)) =
    (Err "Cannot evict pod as it would violate the pod's disruption budget.",
     {| o := written ["pod default/nginx-1 evicted" +:+ nl]
               (withObject (PodList nginx3) NewEvictOptions);
        log := [ReqDiscovery "v1";
                evictRequest ClientV1 (mkPod "default" "nginx-1");
                evictRequest ClientV1 (mkPod "default" "nginx-2")] |}).
Proof.
  apply (RunEvict_short_circuit (cluster [] [] stableDiscovery ["nginx-2"])
           context_Background
           (initial (withObject (PodList nginx3) NewEvictOptions))
           (initial (withObject (PodList nginx3) NewEvictOptions))
           [mkPod "default" "nginx-1"] [mkPod "default" "nginx-3"]
           (mkPod "default" "nginx-2")
           "Cannot evict pod as it would violate the pod's disruption budget.").
  - reflexivity.
  - reflexivity.
  - reflexivity.
  - intros [|i] p Hp; [|discriminate Hp]. injection Hp as <-. reflexivity.
  - reflexivity.
Defined.


Lemma service_without_selector_witness :
  selectorsForObject
    (Service {| metav1.Name := "web"; metav1.Namespace := "default" |} (Some ∅)) =
    inl "invalid service 'web': Service is defined without a selector" /\
  podsForObject (cluster [] nginx3 stableDiscovery []) context_Background
    (Service {| metav1.Name := "web"; metav1.Namespace := "default" |} (Some ∅))
    (initial NewEvictOptions) =
    (Err "cannot get the logs from *v1.Service: invalid service 'web': Service is defined without a selector",
     initial NewEvictOptions).
Proof.
  pose proof (service_without_selector (cluster [] nginx3 stableDiscovery [])
                context_Background
                {| metav1.Name := "web"; metav1.Namespace := "default" |}
                (Some ∅) (initial NewEvictOptions) (or_intror eq_refl))
    as (Hsel & Hpods & _).
  split; [exact Hsel|exact Hpods].
Defined.

(** C8, as the specification words it, fails on a deployment without
    pods: [evict deployment/nginx] resolves the deployment, the list query
    returns no pod, and the command returns no error, writes nothing and
    sends no eviction request. *)
Lemma empty_deployment_is_silent :
  serverList (cluster [nginxDeployment] [] stableDiscovery []) [] context_Background
    "default" {| metav1.LabelSelector_ := "app=nginx"; metav1.FieldSelector := "" |} =
    inr [] /\
  (RunE (cluster [nginxDeployment] [] stableDiscovery []) context_Background
        ["deployment/nginx"] (initial NewEvictOptions)).1 = Ok tt /\
  Out (o (RunE (cluster [nginxDeployment] [] stableDiscovery []) context_Background
               ["deployment/nginx"] (initial NewEvictOptions)).2) = [] /\
  log (RunE (cluster [nginxDeployment] [] stableDiscovery []) context_Background
            ["deployment/nginx"] (initial NewEvictOptions)).2 =
    [ReqInfos {| NamespaceParam := "default";
                 ResourceNames := Some ("pods", "deployment/nginx");
                 ResourceTypes := None;
                 LabelSelectorParam := None |};
     ReqList context_Background "default"
       {| metav1.LabelSelector_ := "app=nginx"; metav1.FieldSelector := "" |};
     ReqDiscovery "v1"].
Proof. repeat split; vm_compute; reflexivity. Qed.

Lemma zero_matches_witness :
  RunE (cluster [PodList []] [] stableDiscovery []) context_Background []
       (initial (withSelector "app=nginx" NewEvictOptions)) =
    (Err "no resources found in default namespace",
     {| o := setObject (PodList []) (withSelector "app=nginx" NewEvictOptions);
        log := [ReqInfos {| NamespaceParam := "default";
                            ResourceNames := None;
                            ResourceTypes := Some "pods";
                            LabelSelectorParam := Some "app=nginx" |}] |}).
Proof.
  apply (proj1 (zero_matches (cluster [PodList []] [] stableDiscovery [])
                  context_Background
                  (initial (withSelector "app=nginx" NewEvictOptions)))
           "default" false []).
  - discriminate.
  - reflexivity.
  - reflexivity.
Defined.

Lemma usage_errors_before_any_query_witness :
  exists e,
    (e = evictUsageErrStr \/
     e = "only a selector (-l) or a resource name is allowed") /\
    (Complete (cluster [] [] stableDiscovery []) [] (initial NewEvictOptions)).1 = Err e /\
    (RunE (cluster [] [] stableDiscovery []) context_Background []
          (initial NewEvictOptions)).1 = Err e /\
    log (RunE (cluster [] [] stableDiscovery []) context_Background []
              (initial NewEvictOptions)).2 = log (initial NewEvictOptions) /\
    Out (o (RunE (cluster [] [] stableDiscovery []) context_Background []
                 (initial NewEvictOptions)).2) = Out (o (initial NewEvictOptions)) /\
    sent (RunE (cluster [] [] stableDiscovery []) context_Background [])
         (initial NewEvictOptions) = [] /\
    output (RunE (cluster [] [] stableDiscovery []) context_Background [])
           (initial NewEvictOptions) = [].
Proof.
  apply (usage_errors_before_any_query (cluster [] [] stableDiscovery [])
           context_Background [] (initial NewEvictOptions)).
  left. split; reflexivity.
Defined.

(** ** Further properties of [Complete] *)

Section complete.
Context `{lib : Apimachinery} (env : Env).

(** [Complete] once the switch on the arguments is passed, step by step. *)
Lemma Complete_passes (args : list string) (st : State) (opts1 : EvictOptions) :
  passesUsage args (o st) opts1 ->
  Complete env args st =
    match kubeconfigNamespace env with
    | inl e => (Err e, {| o := opts1; log := log st |})
    | inr (namespace, overwride) =>
        match builderInfos env (builderOf namespace opts1) with
        | inl e =>
            (Err e, {| o := opts1;
                       log := log st ++ [ReqInfos (builderOf namespace opts1)] |})
        | inr infos =>
            if String.eqb (Selector opts1) "" && negb (length infos =? 1)%nat
            then (Err "expected a resource",
                  {| o := opts1;
                     log := log st ++ [ReqInfos (builderOf namespace opts1)] |})
            else
              match infos with
              | [] =>
                  (Panic "index out of range [0] with length 0",
                   {| o := opts1;
                      log := log st ++ [ReqInfos (builderOf namespace opts1)] |})
              | object :: _ =>
                  (if negb (String.eqb (Selector opts1) "") && negb (isPodList object)
                   then Panic ("interface conversion: runtime.Object is " +:+
                               goTypeName object +:+ ", not *v1.PodList")
                   else if negb (String.eqb (Selector opts1) "")
                           && match object with
                              | PodList Items => (length Items =? 0)%nat
                              | _ => false
                              end
                   then Err ("no resources found in " +:+ namespace +:+ " namespace")
                   else if overwride && isNode object
                   then Err "--namespace should not be specified with node target"
                   else Ok tt,
                   {| o := setObject object opts1;
                      log := log st ++ [ReqInfos (builderOf namespace opts1)] |})
              end
        end
    end.
Proof.
  intros [(-> & Hsel & ->)|(arg & -> & Hsel & ->)].
  - apply String.eqb_neq in Hsel.
    unfold Complete. run. rewrite string_length_0, Hsel. cbn.
    destruct (kubeconfigNamespace env) as [e|[namespace overwride]]; cbn;
      [by destruct st|].
    destruct (builderInfos env _) as [e|infos]; cbn; [done|].
    rewrite Hsel. cbn. destruct infos as [|object rest]; cbn; [done|].
    destruct object; cbn; try done.
    destruct (length Items =? 0)%nat; [done|]. cbn.
    by rewrite andb_false_r.
  - unfold Complete. run. rewrite string_length_0, Hsel. cbn.
    destruct (kubeconfigNamespace env) as [e|[namespace overwride]]; cbn; [done|].
    rewrite Hsel. cbn.
    destruct (builderInfos env _) as [e|infos]; cbn; [done|].
    destruct (negb (length infos =? 1)%nat); [done|].
    destruct infos as [|object rest]; cbn; [done|].
    by destruct (overwride && isNode object).
Qed.

(** When the switch is not passed, [Complete] returns an error and has
    sent nothing. *)
Lemma Complete_rejects (args : list string) (st : State) :
  (exists opts1, passesUsage args (o st) opts1) \/
  (exists e opts1,
     Complete env args st = (Err e, {| o := opts1; log := log st |}) /\
     GracePeriodSeconds opts1 = GracePeriodSeconds (o st) /\
     DryRun opts1 = DryRun (o st) /\
     Selector opts1 = Selector (o st) /\
     Out opts1 = Out (o st)).
Proof.
  destruct (String.eqb (Selector (o st)) "") eqn:Hsel;
    destruct args as [|arg [|arg' rest]].
  - right. exists evictUsageErrStr, (o st).
    unfold Complete. run. rewrite string_length_0, Hsel. by destruct st.
  - left. apply String.eqb_eq in Hsel. eexists. right. by exists arg.
  - right. exists evictUsageErrStr, (o st). by destruct st.
  - left. apply String.eqb_neq in Hsel. eexists. by left.
  - right. exists "only a selector (-l) or a resource name is allowed",
             (setResourceArg arg (o st)).
    unfold Complete. run. by rewrite string_length_0, Hsel.
  - right. exists evictUsageErrStr, (o st). by destruct st.
Qed.

Lemma passesUsage_frame (args : list string) (opts0 opts1 : EvictOptions) :
  passesUsage args opts0 opts1 ->
  GracePeriodSeconds opts1 = GracePeriodSeconds opts0 /\
  DryRun opts1 = DryRun opts0 /\
  Selector opts1 = Selector opts0 /\
  Object_ opts1 = Object_ opts0 /\
  Out opts1 = Out opts0.
Proof. by intros [(_ & _ & ->)|(arg & _ & _ & ->)]. Qed.

(** X1. A [Complete] that returns no error has fetched at least one
    object and stored the first one in [o.Object]; it has sent the fetch
    and nothing else.  Without a selector the fetch returned exactly one
    object; with a selector the stored object is a pod list with at least
    one item.  The stored object is never a node when the namespace was
    overridden. *)
Theorem Complete_postcondition (args : list string) (st st' : State) :
  Complete env args st = (Ok tt, st') ->
  exists opts1 namespace overwride object rest,
    passesUsage args (o st) opts1 /\
    kubeconfigNamespace env = inr (namespace, overwride) /\
    builderInfos env (builderOf namespace opts1) = inr (object :: rest) /\
    st' = {| o := setObject object opts1;
             log := log st ++ [ReqInfos (builderOf namespace opts1)] |} /\
    overwride && isNode object = false /\
    (Selector (o st) = "" -> rest = []) /\
    (Selector (o st) <> "" -> exists Items, object = PodList Items /\ Items <> []).
Proof.
  intros H.
  destruct (Complete_rejects args st) as [[opts1 Hpass]|(e & opts1 & HC & _)];
    [|rewrite HC in H; discriminate H].
  destruct (passesUsage_frame _ _ _ Hpass) as (_ & _ & Hsel & _ & _).
  rewrite (Complete_passes args st opts1 Hpass) in H.
  destruct (kubeconfigNamespace env) as [e|[namespace overwride]]; [discriminate H|].
  destruct (builderInfos env _) as [e|infos] eqn:Hinfos; [discriminate H|].
  rewrite Hsel in H.
  destruct (String.eqb (Selector (o st)) "" && negb (length infos =? 1)%nat)
    eqn:Hone; [discriminate H|].
  destruct infos as [|object rest]; [discriminate H|].
  destruct (negb (String.eqb (Selector (o st)) "") && negb (isPodList object))
    eqn:Hlist; [discriminate H|].
  destruct (negb (String.eqb (Selector (o st)) "")
            && match object with
               | PodList Items => (length Items =? 0)%nat
               | _ => false
               end) eqn:Hzero; [discriminate H|].
  destruct (overwride && isNode object) eqn:Hnode; [discriminate H|].
  injection H as <-.
  exists opts1, namespace, overwride, object, rest.
  repeat split; try done.
  - intros Hempty. rewrite Hempty in Hone. cbn in Hone.
    destruct rest; [done|discriminate Hone].
  - intros Hne. apply String.eqb_neq in Hne. rewrite Hne in Hlist, Hzero.
    cbn in Hlist, Hzero. destruct object; try discriminate Hlist.
    exists Items. split; [done|]. by destruct Items.
Qed.


(** X3. A positional target that resolves to a node is refused when the
    namespace was given on the command line, and accepted otherwise.  The
    refusal comes after the fetch, stops the command before anything else
    is sent, and leaves the node in [o.Object]. *)
Theorem Complete_node_namespace (ctx : Context) (arg namespace : string)
    (overwride : bool) (t : metav1.ObjectMeta) (st : State) :
  Selector (o st) = "" ->
  kubeconfigNamespace env = inr (namespace, overwride) ->
  builderInfos env (builderOf namespace (setResourceArg arg (o st))) =
    inr [Node t] ->
  Complete env [arg] st =
    (if overwride
     then Err "--namespace should not be specified with node target"
     else Ok tt,
     {| o := setObject (Node t) (setResourceArg arg (o st));
        log := log st ++
               [ReqInfos (builderOf namespace (setResourceArg arg (o st)))] |}) /\
  (overwride = true ->
   RunE env ctx [arg] st =
     (Err "--namespace should not be specified with node target",
      {| o := setObject (Node t) (setResourceArg arg (o st));
         log := log st ++
                [ReqInfos (builderOf namespace (setResourceArg arg (o st)))] |})).
Proof.
  intros Hsel Hns Hinfos.
  assert (HC : Complete env [arg] st =
                 (if overwride
                  then Err "--namespace should not be specified with node target"
                  else Ok tt,
                  {| o := setObject (Node t) (setResourceArg arg (o st));
                     log := log st ++
                            [ReqInfos (builderOf namespace
                                         (setResourceArg arg (o st)))] |})).
  { rewrite (Complete_passes [arg] st (setResourceArg arg (o st)))
      by (right; by exists arg).
    rewrite Hns, Hinfos. cbn -[builderOf]. rewrite Hsel. cbn -[builderOf].
    by destruct overwride. }
  split; [exact HC|]. intros ->.
  unfold RunE. unfold mbind at 1, M_bind at 1. by rewrite HC.
Qed.

(** X4. Without a selector, a fetch that returns no object or more than
    one makes [Complete] fail with [expected a resource]; [o.Object] is
    left as it was, and the command stops there. *)
Theorem Complete_expected_a_resource (ctx : Context) (arg namespace : string)
    (overwride : bool) (infos : list Object) (st : State) :
  Selector (o st) = "" ->
  kubeconfigNamespace env = inr (namespace, overwride) ->
  builderInfos env (builderOf namespace (setResourceArg arg (o st))) = inr infos ->
  length infos <> 1 ->
  Complete env [arg] st =
    (Err "expected a resource",
     {| o := setResourceArg arg (o st);
        log := log st ++
               [ReqInfos (builderOf namespace (setResourceArg arg (o st)))] |}) /\
  Object_ (o (Complete env [arg] st).2) = Object_ (o st) /\
  (RunE env ctx [arg] st).1 = Err "expected a resource".
Proof.
  intros Hsel Hns Hinfos Hlen.
  assert (HC : Complete env [arg] st =
                 (Err "expected a resource",
                  {| o := setResourceArg arg (o st);
                     log := log st ++
                            [ReqInfos (builderOf namespace
                                         (setResourceArg arg (o st)))] |})).
  { rewrite (Complete_passes [arg] st (setResourceArg arg (o st)))
      by (right; by exists arg).
    rewrite Hns, Hinfos. cbn -[builderOf]. rewrite Hsel.
    apply Nat.eqb_neq in Hlen. by rewrite Hlen. }
  split; [exact HC|]. split; [by rewrite HC|].
  unfold RunE. unfold mbind at 1, M_bind at 1. by rewrite HC.
Qed.

(** X5. With a selector, [Complete] reads [infos[0]] and asserts that it
    is a pod list without a check: when the fetch returns no object, or a
    first object that is not a pod list, [Complete] panics, and so does the
    command, after the fetch and before anything else is sent. *)
Theorem Complete_selector_panics (ctx : Context) (namespace : string)
    (overwride : bool) (infos : list Object) (st : State) :
  Selector (o st) <> "" ->
  kubeconfigNamespace env = inr (namespace, overwride) ->
  builderInfos env (builderOf namespace (o st)) = inr infos ->
  match infos with
  | [] => True
  | object :: _ => isPodList object = false
  end ->
  exists msg,
    (Complete env [] st).1 = Panic msg /\
    (RunE env ctx [] st).1 = Panic msg /\
    sent (RunE env ctx []) st = [ReqInfos (builderOf namespace (o st))].
Proof.
  intros Hsel Hns Hinfos Hhead.
  assert (HC : exists msg opts2,
             Complete env [] st =
               (Panic msg,
                {| o := opts2;
                   log := log st ++ [ReqInfos (builderOf namespace (o st))] |})).
  { rewrite (Complete_passes [] st (o st)) by (by left).
    rewrite Hns, Hinfos. apply String.eqb_neq in Hsel. rewrite Hsel.
    cbn -[builderOf]. destruct infos as [|object rest]; [by eexists _, _|].
    rewrite Hhead. cbn -[builderOf]. by eexists _, _. }
  destruct HC as (msg & opts2 & HC).
  assert (HR : RunE env ctx [] st =
                 (Panic msg,
                  {| o := opts2;
                     log := log st ++ [ReqInfos (builderOf namespace (o st))] |})).
  { unfold RunE. unfold mbind at 1, M_bind at 1. by rewrite HC. }
  exists msg. rewrite HC, HR. repeat split.
  apply sent_app. by rewrite HR.
Qed.


(** X7. Once the switch is passed, an error of the kubeconfig loader is
    returned before anything is sent, and an error of the fetch is returned
    right after the fetch; in both cases [o.Object] is left as it was and
    the command returns that error. *)
Theorem Complete_fetch_errors (ctx : Context) (args : list string)
    (opts1 : EvictOptions) (e : error) (st : State) :
  passesUsage args (o st) opts1 ->
  (kubeconfigNamespace env = inl e ->
   RunE env ctx args st = (Err e, {| o := opts1; log := log st |})) /\
  (forall namespace overwride,
     kubeconfigNamespace env = inr (namespace, overwride) ->
     builderInfos env (builderOf namespace opts1) = inl e ->
     RunE env ctx args st =
       (Err e, {| o := opts1;
                  log := log st ++ [ReqInfos (builderOf namespace opts1)] |})) /\
  Object_ opts1 = Object_ (o st).
Proof.
  intros Hpass. pose proof (Complete_passes args st opts1 Hpass) as HC.
  split; [|split].
  - intros Hns. rewrite Hns in HC.
    unfold RunE. unfold mbind at 1, M_bind at 1. by rewrite HC.
  - intros namespace overwride Hns Hinfos. rewrite Hns, Hinfos in HC.
    unfold RunE. unfold mbind at 1, M_bind at 1. by rewrite HC.
  - by destruct (passesUsage_frame _ _ _ Hpass) as (_ & _ & _ & -> & _).
Qed.

End complete.

(** ** Further properties of the resolution and of the run *)

Section resolution.
Context `{lib : Apimachinery} (env : Env).

(** How the loop ends: after the lines of the first [k] pods, either with
    every pod requested, or with the error of pod [k], requested last. *)
Lemma evictPods_outcome (c : Client) (ctx : Context) (opts : metav1.DeleteOptions)
    (verb : string) :
  forall (pods : list Pod) (st : State),
    exists k,
      k <= length pods /\
      o (evictPods env c ctx opts verb pods st).2 =
        written (linesOf verb (take k pods)) (o st) /\
      (((evictPods env c ctx opts verb pods st).1 = Ok tt /\
        k = length pods /\
        log (evictPods env c ctx opts verb pods st).2 =
          log st ++ (evictRequest c <$> pods)) \/
       (exists e pod,
          pods !! k = Some pod /\
          (evictPods env c ctx opts verb pods st).1 = Err e /\
          evictAnswer env (log st ++ (evictRequest c <$> take k pods)) c pod = Some e /\
          log (evictPods env c ctx opts verb pods st).2 =
            log st ++ (evictRequest c <$> take (S k) pods))).
Proof.
  induction pods as [|p pods IH]; intros st.
  - exists 0. cbn. rewrite written_nil, app_nil_r. split; [lia|]. split; [done|].
    by left.
  - rewrite evictPods_cons. destruct (evictAnswer env (log st) c p) as [e|] eqn:Hp.
    + exists 0. cbn. rewrite written_nil. split; [lia|]. split; [done|].
      right. exists e, p. by rewrite app_nil_r.
    + destruct (IH {| o := written [evictedLine p verb] (o st);
                      log := log st ++ [evictRequest c p] |})
        as (k & Hk & Ho & Hend).
      exists (S k). cbn [length take]. split; [lia|]. split.
      { rewrite Ho. cbn [o]. by rewrite written_written. }
      destruct Hend as [(Hr & -> & Hl)|(e & pod & Hpod & Hr & Ha & Hl)].
      * left. rewrite Hr, Hl. cbn [log]. by rewrite <- app_assoc.
      * right. exists e, pod. rewrite Hr, Hl. cbn [log] in *.
        rewrite <- app_assoc in Ha. by rewrite <- app_assoc.
Qed.

(** The log of a run: the list query of the resolution when the client
    configuration loads, then nothing, or the discovery query followed by
    eviction requests. *)
Lemma RunEvict_log (ctx : Context) (st : State) :
  exists pre evs,
    log (RunEvict env ctx st).2 = log st ++ pre ++ evs /\
    (pre = [] \/ pre = listQueryOf ctx (objectOf (o st))) /\
    (toRESTConfig env = None -> newForConfig env = None ->
     pre = listQueryOf ctx (objectOf (o st))) /\
    (evs = [] \/
     exists c pods, evs = ReqDiscovery "v1" :: (evictRequest c <$> pods)).
Proof.
  rewrite RunEvict_run.
  destruct (toRESTConfig env).
  { exists [], []. cbn. rewrite app_nil_r. repeat split; auto. done. }
  destruct (newForConfig env).
  { exists [], []. cbn. rewrite app_nil_r. repeat split; auto. done. }
  pose proof (podsForObject_sent env ctx (objectOf (o st)) st) as Hlog.
  fold (listQueryOf ctx (objectOf (o st))) in Hlog.
  destruct (podsForObject env ctx (objectOf (o st)) st) as [[pods|e|msg] st1];
    cbn [snd] in Hlog.
  - destruct (evictPods_prefix env (clientFor (discovered env (log st1))) ctx
                (deleteOptionsOf (o st)) (verbOf (o st)) pods
                {| o := o st1; log := log st1 ++ [ReqDiscovery "v1"] |})
      as (n & k & Hl & _).
    exists (listQueryOf ctx (objectOf (o st))),
           (ReqDiscovery "v1" ::
            (evictRequest (clientFor (discovered env (log st1))) <$> take n pods)).
    rewrite Hl. cbn [log]. rewrite Hlog, <- !app_assoc.
    repeat split; auto. right. by eexists _, _.
  - exists (listQueryOf ctx (objectOf (o st))), []. cbn [snd].
    rewrite Hlog, app_nil_r. repeat split; auto.
  - exists (listQueryOf ctx (objectOf (o st))), []. cbn [snd].
    rewrite Hlog, app_nil_r. repeat split; auto.
Qed.

Lemma listQueryOf_cases (ctx : Context) (object : Object) :
  listQueryOf ctx object = [] \/
  exists namespace labelsel fieldsel,
    isPods object = false /\
    selectorsForObject object = inr (namespace, labelsel, fieldsel) /\
    listQueryOf ctx object = [ReqList ctx namespace (listOptionsOf labelsel fieldsel)].
Proof.
  unfold listQueryOf.
  destruct object; auto;
    (destruct (selectorsForObject _) as [err|[[namespace labelsel] fieldsel]];
     [by left|right; by eexists _, _, _]).
Qed.

(** X8. After the pods are resolved the run never panics.  It writes the
    lines of the first [k] pods, in their order, and then either returns
    no error, having requested the eviction of every pod, or returns the
    error the server gave for the next pod, having requested the evictions
    of the first [k + 1] pods and of no other. *)
Theorem RunEvict_accounting (ctx : Context) (st st1 : State) (pods : list Pod) :
  toRESTConfig env = None ->
  newForConfig env = None ->
  podsForObject env ctx (objectOf (o st)) st = (Ok pods, st1) ->
  exists k,
    k <= length pods /\
    o (RunEvict env ctx st).2 =
      written (linesOf (verbOf (o st)) (take k pods)) (o st) /\
    (((RunEvict env ctx st).1 = Ok tt /\
      k = length pods /\
      log (RunEvict env ctx st).2 =
        log st1 ++ ReqDiscovery "v1" ::
          (evictRequest (clientFor (discovered env (log st1))) <$> pods)) \/
     (exists e pod,
        pods !! k = Some pod /\
        (RunEvict env ctx st).1 = Err e /\
        evictAnswer env
          (log st1 ++ ReqDiscovery "v1" ::
             (evictRequest (clientFor (discovered env (log st1))) <$> take k pods))
          (clientFor (discovered env (log st1))) pod = Some e /\
        log (RunEvict env ctx st).2 =
          log st1 ++ ReqDiscovery "v1" ::
            (evictRequest (clientFor (discovered env (log st1))) <$> take (S k) pods))).
Proof.
  intros Hrest Hnew Hpods.
  pose proof (podsForObject_o env ctx (objectOf (o st)) st) as Ho.
  rewrite Hpods in Ho. destruct st1 as [o1 l1]. cbn in Ho. subst o1.
  rewrite RunEvict_run, Hrest, Hnew, Hpods. cbn [o log].
  destruct (evictPods_outcome (clientFor (discovered env l1)) ctx
              (deleteOptionsOf (o st)) (verbOf (o st)) pods
              {| o := o st; log := l1 ++ [ReqDiscovery "v1"] |})
    as (k & Hk & Hout & Hend).
  cbn [o log] in Hout, Hend.
  exists k. split; [exact Hk|]. split; [exact Hout|].
  destruct Hend as [(Hr & -> & Hl)|(e & pod & Hpod & Hr & Ha & Hl)].
  - left. rewrite Hr, Hl. by rewrite <- app_assoc.
  - right. exists e, pod. rewrite Hr, Hl.
    rewrite <- app_assoc in Ha. by rewrite <- app_assoc.
Qed.

(** X9. When every eviction is accepted, the run returns no error, sends
    one eviction request for each resolved pod, in their order, and writes
    one line for each, in the same order. *)
Theorem RunEvict_all_accepted (ctx : Context) (st st1 : State) (pods : list Pod) :
  toRESTConfig env = None ->
  newForConfig env = None ->
  podsForObject env ctx (objectOf (o st)) st = (Ok pods, st1) ->
  (forall i p, pods !! i = Some p ->
     evictAnswer env
       (log st1 ++ [ReqDiscovery "v1"] ++
        (evictRequest (clientFor (discovered env (log st1))) <$> take i pods))
       (clientFor (discovered env (log st1))) p = None) ->
  RunEvict env ctx st =
    (Ok tt,
     {| o := written (linesOf (verbOf (o st)) pods) (o st);
        log := log st1 ++ [ReqDiscovery "v1"] ++
               (evictRequest (clientFor (discovered env (log st1))) <$> pods) |}).
Proof.
  intros Hrest Hnew Hpods Hall.
  pose proof (podsForObject_o env ctx (objectOf (o st)) st) as Ho.
  rewrite Hpods in Ho. cbn in Ho.
  rewrite RunEvict_run, Hrest, Hnew, Hpods.
  rewrite evictPods_all; cbn [o log].
  - rewrite Ho. by rewrite <- app_assoc.
  - intros i p Hi. rewrite <- app_assoc. by apply Hall.
Qed.

(** X10. A failure before the loop, of the client configuration or of the
    resolution, is returned as it is: the run sends no discovery query and
    no eviction request, and writes nothing. *)
Theorem RunEvict_failure_before_loop (ctx : Context) (st : State) (e : error) :
  toRESTConfig env = Some e \/
  (toRESTConfig env = None /\ newForConfig env = Some e) \/
  (toRESTConfig env = None /\ newForConfig env = None /\
   (podsForObject env ctx (objectOf (o st)) st).1 = Err e) ->
  (RunEvict env ctx st).1 = Err e /\
  o (RunEvict env ctx st).2 = o st /\
  Forall (fun req => isDiscovery req = false /\ isEvict req = false)
         (sent (RunEvict env ctx) st).
Proof.
  intros Hfail.
  assert (Hnil : forall m : M unit, (m st).2 = st ->
            Forall (fun req => isDiscovery req = false /\ isEvict req = false)
                   (sent m st)).
  { intros m Hm. erewrite sent_app; [constructor|]. by rewrite Hm, app_nil_r. }
  destruct Hfail as [Hrest|[[Hrest Hnew]|(Hrest & Hnew & Hpods)]].
  - pose proof (RunEvict_run env ctx st) as HR. rewrite Hrest in HR.
    rewrite HR. repeat split; try done. apply Hnil. by rewrite HR.
  - pose proof (RunEvict_run env ctx st) as HR. rewrite Hrest, Hnew in HR.
    rewrite HR. repeat split; try done. apply Hnil. by rewrite HR.
  - pose proof (RunEvict_run env ctx st) as HR. rewrite Hrest, Hnew in HR.
    pose proof (podsForObject_o env ctx (objectOf (o st)) st) as Ho.
    destruct (podsForObject_pre env ctx (objectOf (o st)) st) as (pre & Hlog & Hpre).
    destruct (podsForObject env ctx (objectOf (o st)) st) as [r st1].
    cbn in Hpods, Ho, Hlog. subst r. rewrite HR. cbn [fst snd].
    repeat split; try done.
    erewrite sent_app; [exact Hpre|]. by rewrite HR.
Qed.

(** X11. A run sends at most one list query.  It is sent under the
    caller's context, before every other request of the run, with the
    namespace and the selectors [selectorsForObject] derived; a run on a
    pod or on a pod list sends none. *)
Theorem RunEvict_list_query (ctx : Context) (st : State) :
  Forall (fun req =>
            match req with
            | ReqList ctx' _ _ => ctx' = ctx
            | _ => True
            end)
         (sent (RunEvict env ctx) st) /\
  length (List.filter isList (sent (RunEvict env ctx) st)) <= 1 /\
  (exists pre evs,
     sent (RunEvict env ctx) st = pre ++ evs /\
     Forall (fun req => isList req = false) evs /\
     (pre = [] \/
      exists namespace labelsel fieldsel,
        selectorsForObject (objectOf (o st)) = inr (namespace, labelsel, fieldsel) /\
        pre = [ReqList ctx namespace (listOptionsOf labelsel fieldsel)])) /\
  (isPods (objectOf (o st)) = true ->
   List.filter isList (sent (RunEvict env ctx) st) = []).
Proof.
  destruct (RunEvict_log ctx st) as (pre & evs & Hlog & Hpre & _ & Hevs).
  rewrite (sent_app _ _ _ Hlog).
  assert (Hev : Forall (fun req => isList req = false) evs).
  { destruct Hevs as [-> | (c & pods & ->)]; [constructor|].
    constructor; [done|]. apply Forall_fmap, Forall_forall. by intros pod _. }
  assert (Hfil : List.filter isList evs = []).
  { clear -Hev. induction Hev as [|req evs' Hreq _ IH]; [done|].
    cbn. by rewrite Hreq. }
  assert (Hcases : pre = [] \/
            exists namespace labelsel fieldsel,
              isPods (objectOf (o st)) = false /\
              selectorsForObject (objectOf (o st)) =
                inr (namespace, labelsel, fieldsel) /\
              pre = [ReqList ctx namespace (listOptionsOf labelsel fieldsel)]).
  { destruct Hpre as [-> | ->]; [by left|].
    destruct (listQueryOf_cases ctx (objectOf (o st)))
      as [-> | (namespace & labelsel & fieldsel & Hp & Hs & ->)]; [by left|].
    right. by eexists _, _, _. }
  split; [|split; [|split]].
  - apply Forall_app. split.
    + destruct Hcases as [-> | (namespace & labelsel & fieldsel & _ & _ & ->)];
        by repeat constructor.
    + eapply Forall_impl; [exact Hev|]. by intros [] Hreq.
  - rewrite List.filter_app, length_app, Hfil.
    destruct Hcases as [-> | (namespace & labelsel & fieldsel & _ & _ & ->)];
      cbn; lia.
  - exists pre, evs. split; [done|]. split; [exact Hev|].
    destruct Hcases as [-> | (namespace & labelsel & fieldsel & _ & Hs & ->)];
      [by left|]. right. by eexists _, _, _.
  - intros Hpods. rewrite List.filter_app, Hfil.
    destruct Hcases as [-> | (namespace & labelsel & fieldsel & Hp & _ & ->)];
      [done|congruence].
Qed.

End resolution.

(** ** Further properties of the targets and of the command *)

Section targets.
Context `{lib : Apimachinery} (env : Env).

(** X12. A failed derivation is wrapped: for every object but a pod and
    a pod list, which need none, the error of [selectorsForObject] comes
    back from [podsForObject] behind [cannot get the logs from <type>: ],
    and no query is sent. *)
Theorem derivation_failure_wrapped (ctx : Context) (object : Object)
    (err : error) (st : State) :
  isPods object = false ->
  selectorsForObject object = inl err ->
  podsForObject env ctx object st =
    (Err ("cannot get the logs from " +:+ goTypeName object +:+ ": " +:+ err), st).
Proof.
  intros Hp Hs. rewrite podsForObject_run, Hs.
  by destruct object.
Qed.

(** X13. For a replica set, stateful set, daemon set, deployment or job
    whose selector translates, [podsForObject] sends one list query, in
    the object's namespace, with the printed translation as label selector
    and no field selector.  What the server returns comes back as it is:
    the pods in the server's order, an empty list as an empty list, an
    error without any wrapping.  When the selector does not translate, the
    error is [invalid label selector: ] followed by the library's. *)
Theorem podsForObject_controller (ctx : Context) (object : Object)
    (s : option metav1.LabelSelector) (namespace : string) (st : State) :
  labelSelectorOf object = Some s ->
  controllerNamespace object = Some namespace ->
  (forall labelsel,
     LabelSelectorAsSelector s = inr labelsel ->
     podsForObject env ctx object st =
       (match serverList env (log st) ctx namespace
                {| metav1.LabelSelector_ := labels_String labelsel;
                   metav1.FieldSelector := "" |} with
        | inl e => Err e
        | inr pods => Ok pods
        end,
        {| o := o st;
           log := log st ++
                  [ReqList ctx namespace
                     {| metav1.LabelSelector_ := labels_String labelsel;
                        metav1.FieldSelector := "" |}] |})) /\
  (forall err,
     LabelSelectorAsSelector s = inl err ->
     selectorsForObject object = inl ("invalid label selector: " +:+ err)).
Proof.
  intros Hs Hns. split.
  - intros labelsel Htr. rewrite podsForObject_run.
    destruct object; try discriminate Hs; cbn in Hs, Hns;
      injection Hs as ->; injection Hns as <-;
      cbn; unfold selectorsOfLabelSelector; by rewrite Htr.
  - intros err Htr.
    destruct object; try discriminate Hs; cbn in Hs;
      injection Hs as ->; cbn; unfold selectorsOfLabelSelector; by rewrite Htr.
Qed.

(** X14. For a replication controller the derivation never fails, not
    even on a nil selector map, where a service is refused.  With a library
    that prints the selector of a nil set as the empty string, the list
    query for such a controller is not filtered at all: the run is given
    every pod of the controller's namespace. *)
Theorem replication_controller_nil_selector (ctx : Context)
    (t : metav1.ObjectMeta) (st : State) :
  labels_String (labels_SelectorFromSet None) = "" ->
  (forall selector,
     selectorsForObject (ReplicationController t selector) =
       inr (metav1.Namespace t, Some (labels_SelectorFromSet selector), None)) /\
  podsForObject env ctx (ReplicationController t None) st =
    (match serverList env (log st) ctx (metav1.Namespace t)
             {| metav1.LabelSelector_ := ""; metav1.FieldSelector := "" |} with
     | inl e => Err e
     | inr pods => Ok pods
     end,
     {| o := o st;
        log := log st ++
               [ReqList ctx (metav1.Namespace t)
                  {| metav1.LabelSelector_ := "";
                     metav1.FieldSelector := "" |}] |}).
Proof.
  intros Hnil. split; [done|].
  rewrite podsForObject_run. cbn. unfold listOptionsOf. by rewrite Hnil.
Qed.

(** X15. For a service the derivation succeeds exactly when the selector
    map has an entry, and then gives the service's namespace, the selector
    of the map and no field selector. *)
Theorem service_selector (t : metav1.ObjectMeta)
    (selector : option (gmap string string)) :
  ((exists r, selectorsForObject (Service t selector) = inr r) <->
   exists m, selector = Some m /\ m <> ∅) /\
  (forall r,
     selectorsForObject (Service t selector) = inr r ->
     r = (metav1.Namespace t, Some (labels_SelectorFromSet selector), None)).
Proof.
  assert (Hsize : forall m : gmap string string, (size m =? 0)%nat = true <-> m = ∅).
  { intros m. rewrite Nat.eqb_eq. apply map_size_empty_iff. }
  split.
  - split.
    + intros [r Hr]. cbn in Hr. destruct selector as [m|]; [|discriminate Hr].
      exists m. split; [done|]. intros ->.
      by rewrite (proj2 (Hsize ∅) eq_refl) in Hr.
    + intros (m & -> & Hm). cbn.
      destruct (size m =? 0)%nat eqn:E; [by apply Hsize in E|]. by eexists.
  - intros r Hr. cbn in Hr.
    destruct (match selector with Some m => _ | None => _ end);
      [discriminate Hr|]. by injection Hr as <-.
Qed.

(** X16. The command on the name of a pod: when the fetch returns that
    one pod and the client configuration loads, the command sends the
    fetch, the discovery query and exactly one eviction request, for that
    pod; it returns what the server answered to it, and writes the pod's
    line exactly when the eviction was accepted. *)
Theorem RunE_single_pod (ctx : Context) (arg namespace : string)
    (overwride : bool) (pod : Pod) (st : State) :
  Selector (o st) = "" ->
  kubeconfigNamespace env = inr (namespace, overwride) ->
  builderInfos env (builderOf namespace (setResourceArg arg (o st))) =
    inr [APod pod] ->
  toRESTConfig env = None ->
  newForConfig env = None ->
  RunE env ctx [arg] st =
    (match evictAnswer env
             (log st ++
              [ReqInfos (builderOf namespace (setResourceArg arg (o st)));
               ReqDiscovery "v1"])
             (clientFor
                (discovered env
                   (log st ++
                    [ReqInfos (builderOf namespace (setResourceArg arg (o st)))])))
             pod with
     | Some e => Err e
     | None => Ok tt
     end,
     {| o := written
               (match evictAnswer env
                        (log st ++
                         [ReqInfos (builderOf namespace (setResourceArg arg (o st)));
                          ReqDiscovery "v1"])
                        (clientFor
                           (discovered env
                              (log st ++
                               [ReqInfos (builderOf namespace
                                            (setResourceArg arg (o st)))])))
                        pod with
                | Some _ => []
                | None => [evictedLine pod (verbOf (o st))]
                end)
               (setObject (APod pod) (setResourceArg arg (o st)));
        log := log st ++
               [ReqInfos (builderOf namespace (setResourceArg arg (o st)));
                ReqDiscovery "v1";
                evictRequest
                  (clientFor
                     (discovered env
                        (log st ++
                         [ReqInfos (builderOf namespace
                                      (setResourceArg arg (o st)))])))
                  pod] |}).
Proof.
  intros Hsel Hns Hinfos Hrest Hnew.
  unfold RunE. unfold mbind at 1, M_bind at 1.
  rewrite (Complete_passes env [arg] st (setResourceArg arg (o st)))
    by (right; by exists arg).
  rewrite Hns, Hinfos. cbn -[builderOf]. rewrite Hsel. cbn -[builderOf].
  rewrite andb_false_r.
  unfold mbind at 1, M_bind at 1.
  rewrite RunEvict_run, Hrest, Hnew. cbn -[builderOf evictPods].
  rewrite evictPods_cons. cbn -[builderOf]. rewrite <- !app_assoc. cbn -[builderOf].
  destruct (evictAnswer env _ _ pod) as [e|].
  - by rewrite written_nil.
  - reflexivity.
Qed.

(** X17. The command on a label selector: when the fetch returns a pod
    list with items, the client configuration loads and every eviction is
    accepted, the command returns no error; after the fetch and the
    discovery query it sends one eviction request for each item, in the
    order of the list, without any list query, and writes one line for
    each in the same order. *)
Theorem RunE_selector (ctx : Context) (namespace : string) (overwride : bool)
    (Items : list Pod) (rest : list Object) (st : State) :
  Selector (o st) <> "" ->
  kubeconfigNamespace env = inr (namespace, overwride) ->
  builderInfos env (builderOf namespace (o st)) = inr (PodList Items :: rest) ->
  Items <> [] ->
  toRESTConfig env = None ->
  newForConfig env = None ->
  (forall i p, Items !! i = Some p ->
     evictAnswer env
       (log st ++ [ReqInfos (builderOf namespace (o st)); ReqDiscovery "v1"] ++
        (evictRequest
           (clientFor (discovered env
                         (log st ++ [ReqInfos (builderOf namespace (o st))])))
           <$> take i Items))
       (clientFor (discovered env
                     (log st ++ [ReqInfos (builderOf namespace (o st))])))
       p = None) ->
  RunE env ctx [] st =
    (Ok tt,
     {| o := written (linesOf (verbOf (o st)) Items)
               (setObject (PodList Items) (o st));
        log := log st ++ [ReqInfos (builderOf namespace (o st)); ReqDiscovery "v1"] ++
               (evictRequest
                  (clientFor (discovered env
                                (log st ++ [ReqInfos (builderOf namespace (o st))])))
                  <$> Items) |}).
Proof.
  intros Hsel Hns Hinfos Hitems Hrest Hnew Hall.
  unfold RunE. unfold mbind at 1, M_bind at 1.
  rewrite (Complete_passes env [] st (o st)) by (by left).
  rewrite Hns, Hinfos. apply String.eqb_neq in Hsel. rewrite Hsel.
  cbn -[builderOf].
  destruct Items as [|p0 Items0] eqn:HI; [done|]. rewrite <- HI in *.
  assert (Hlen : (length Items =? 0)%nat = false) by (by rewrite HI).
  rewrite Hlen. cbn -[builderOf]. rewrite andb_false_r.
  unfold mbind at 1, M_bind at 1.
  rewrite RunEvict_run, Hrest, Hnew. cbn -[builderOf evictPods].
  rewrite evictPods_all; cbn -[builderOf].
  - rewrite <- !app_assoc. reflexivity.
  - intros i p Hi. rewrite <- !app_assoc. by apply Hall.
Qed.

End targets.

(** ** The further properties at concrete inputs *)

Lemma Complete_postcondition_witness :
  Complete podCluster ["nginx"] fresh =
    (Ok tt,
     {| o := setObject (APod nginx) (setResourceArg "nginx" NewEvictOptions);
        log := [ReqInfos (builderOf "default"
                            (setResourceArg "nginx" NewEvictOptions))] |}) /\
  exists opts1 namespace overwride object rest,
    passesUsage ["nginx"] (o fresh) opts1 /\
    kubeconfigNamespace podCluster = inr (namespace, overwride) /\
    builderInfos podCluster (builderOf namespace opts1) = inr (object :: rest) /\
    {| o := setObject (APod nginx) (setResourceArg "nginx" NewEvictOptions);
       log := [ReqInfos (builderOf "default"
                           (setResourceArg "nginx" NewEvictOptions))] |} =
      {| o := setObject object opts1;
         log := log fresh ++ [ReqInfos (builderOf namespace opts1)] |} /\
    overwride && isNode object = false /\
    (Selector (o fresh) = "" -> rest = []) /\
    (Selector (o fresh) <> "" -> exists Items, object = PodList Items /\ Items <> []).
Proof.
  split; [reflexivity|].
  apply (Complete_postcondition podCluster ["nginx"] fresh). reflexivity.
Defined.


Lemma Complete_node_namespace_witness :
  RunE (withKubeconfig (inr ("kube-system", true))
          (cluster [worker1] nginx3 stableDiscovery []))
       context_Background ["node/worker-1"] fresh =
    (Err "--namespace should not be specified with node target",
     {| o := setObject worker1 (setResourceArg "node/worker-1" NewEvictOptions);
        log := [ReqInfos {| NamespaceParam := "kube-system";
                            ResourceNames := Some ("pods", "node/worker-1");
                            ResourceTypes := None;
                            LabelSelectorParam := None |}] |}).
Proof.
  apply (proj2 (Complete_node_namespace
                  (withKubeconfig (inr ("kube-system", true))
                     (cluster [worker1] nginx3 stableDiscovery []))
                  context_Background "node/worker-1" "kube-system" true
                  {| metav1.Name := "worker-1"; metav1.Namespace := "" |}
                  fresh eq_refl eq_refl eq_refl)).
  reflexivity.
Defined.

Lemma Complete_expected_a_resource_witness :
  Complete (cluster [] [] stableDiscovery []) ["nginx"] fresh =
    (Err "expected a resource",
     {| o := setResourceArg "nginx" NewEvictOptions;
        log := [ReqInfos {| NamespaceParam := "default";
                            ResourceNames := Some ("pods", "nginx");
                            ResourceTypes := None;
                            LabelSelectorParam := None |}] |}).
Proof.
  apply (proj1 (Complete_expected_a_resource (cluster [] [] stableDiscovery [])
                  context_Background "nginx" "default" false [] fresh
                  eq_refl eq_refl eq_refl ltac:(discriminate))).
Defined.

Lemma Complete_selector_panics_witness :
  exists msg,
    (Complete (cluster [] [] stableDiscovery []) []
       (initial (withSelector "app=nginx" NewEvictOptions))).1 = Panic msg /\
    (RunE (cluster [] [] stableDiscovery []) context_Background []
       (initial (withSelector "app=nginx" NewEvictOptions))).1 = Panic msg /\
    sent (RunE (cluster [] [] stableDiscovery []) context_Background [])
         (initial (withSelector "app=nginx" NewEvictOptions)) =
      [ReqInfos (builderOf "default" (withSelector "app=nginx" NewEvictOptions))].
Proof.
  apply (Complete_selector_panics (cluster [] [] stableDiscovery [])
           context_Background "default" false []
           (initial (withSelector "app=nginx" NewEvictOptions))).
  - discriminate.
  - reflexivity.
  - reflexivity.
  - exact I.
Defined.


Lemma Complete_fetch_errors_witness :
  RunE (withInfos (inl "pods nginx not found") podCluster)
       context_Background ["nginx"] fresh =
    (Err "pods nginx not found",
     {| o := setResourceArg "nginx" NewEvictOptions;
        log := [ReqInfos {| NamespaceParam := "default";
                            ResourceNames := Some ("pods", "nginx");
                            ResourceTypes := None;
                            LabelSelectorParam := None |}] |}).
Proof.
  apply (proj1 (proj2 (Complete_fetch_errors
                         (withInfos (inl "pods nginx not found") podCluster)
                         context_Background ["nginx"]
                         (setResourceArg "nginx" NewEvictOptions)
                         "pods nginx not found" fresh
                         (or_intror (ex_intro _ "nginx"
                                       (conj eq_refl (conj eq_refl eq_refl))))))
           "default" false eq_refl eq_refl).
Defined.

Lemma RunEvict_accounting_witness :
  exists k,
    k <= length nginx3 /\
    o (RunEvict (cluster [] [] stableDiscovery ["nginx-2"]) context_Background listed).2 =
      written (linesOf (verbOf (o listed)) (take k nginx3)) (o listed) /\
    (((RunEvict (cluster [] [] stableDiscovery ["nginx-2"])
         context_Background listed).1 = Ok tt /\
      k = length nginx3 /\
      log (RunEvict (cluster [] [] stableDiscovery ["nginx-2"])
             context_Background listed).2 =
        log listed ++ ReqDiscovery "v1" ::
          (evictRequest
             (clientFor (discovered (cluster [] [] stableDiscovery ["nginx-2"])
                           (log listed))) <$> nginx3)) \/
     (exists e pod,
        nginx3 !! k = Some pod /\
        (RunEvict (cluster [] [] stableDiscovery ["nginx-2"])
           context_Background listed).1 = Err e /\
        evictAnswer (cluster [] [] stableDiscovery ["nginx-2"])
          (log listed ++ ReqDiscovery "v1" ::
             (evictRequest
                (clientFor (discovered (cluster [] [] stableDiscovery ["nginx-2"])
                              (log listed))) <$> take k nginx3))
          (clientFor (discovered (cluster [] [] stableDiscovery ["nginx-2"])
                        (log listed))) pod = Some e /\
        log (RunEvict (cluster [] [] stableDiscovery ["nginx-2"])
               context_Background listed).2 =
          log listed ++ ReqDiscovery "v1" ::
            (evictRequest
               (clientFor (discovered (cluster [] [] stableDiscovery ["nginx-2"])
                             (log listed))) <$> take (S k) nginx3))).
Proof.
  apply (RunEvict_accounting (cluster [] [] stableDiscovery ["nginx-2"])
           context_Background listed listed nginx3); reflexivity.
Defined.

Lemma RunEvict_all_accepted_witness :
  RunEvict (cluster [] [] stableDiscovery []) context_Background listed =
    (Ok tt,
     {| o := written ["pod default/nginx-1 evicted" +:+ nl;
                      "pod default/nginx-2 evicted" +:+ nl;
                      "pod default/nginx-3 evicted" +:+ nl] (o listed);
        log := ReqDiscovery "v1" :: (evictRequest ClientV1 <$> nginx3) |}).
Proof.
  apply (RunEvict_all_accepted (cluster [] [] stableDiscovery [])
           context_Background listed listed nginx3);
    [reflexivity|reflexivity|reflexivity|].
  intros i p _. reflexivity.
Defined.

Lemma RunEvict_failure_before_loop_witness :
  (RunEvict (withRESTConfig (Some "no configuration has been provided")
               (cluster [] [] stableDiscovery []))
     context_Background listed).1 = Err "no configuration has been provided" /\
  o (RunEvict (withRESTConfig (Some "no configuration has been provided")
                 (cluster [] [] stableDiscovery []))
       context_Background listed).2 = o listed /\
  Forall (fun req => isDiscovery req = false /\ isEvict req = false)
         (sent (RunEvict (withRESTConfig (Some "no configuration has been provided")
                            (cluster [] [] stableDiscovery []))
                  context_Background) listed).
Proof.
  apply (RunEvict_failure_before_loop
           (withRESTConfig (Some "no configuration has been provided")
              (cluster [] [] stableDiscovery []))
           context_Background listed "no configuration has been provided").
  left. reflexivity.
Defined.

Lemma RunEvict_list_query_witness :
  List.filter isList
    (sent (RunEvict (cluster [] [] stableDiscovery []) context_Background) listed) = [].
Proof.
  apply (proj2 (proj2 (proj2 (RunEvict_list_query
                                (cluster [] [] stableDiscovery [])
                                context_Background listed)))).
  reflexivity.
Defined.

Lemma derivation_failure_wrapped_witness :
  podsForObject (cluster [] nginx3 stableDiscovery []) context_Background
    (OtherObject "*v1.ConfigMap") fresh =
    (Err "cannot get the logs from *v1.ConfigMap: selector for *v1.ConfigMap not implemented",
     fresh).
Proof.
  apply (derivation_failure_wrapped (cluster [] nginx3 stableDiscovery [])
           context_Background (OtherObject "*v1.ConfigMap")
           "selector for *v1.ConfigMap not implemented" fresh);
    reflexivity.
Defined.

Lemma podsForObject_controller_witness :
  podsForObject (cluster [] nginx3 stableDiscovery []) context_Background
    nginxDeployment fresh =
    (Ok nginx3,
     {| o := o fresh;
        log := [ReqList context_Background "default"
                  {| metav1.LabelSelector_ := "app=nginx";
                     metav1.FieldSelector := "" |}] |}).
Proof.
  apply (proj1 (@podsForObject_controller textSelectors
                  (cluster [] nginx3 stableDiscovery [])
                  context_Background nginxDeployment
                  (Some {| metav1.MatchLabels := {[ "app" := "nginx" ]};
                           metav1.MatchExpressions := [] |})
                  "default" fresh eq_refl eq_refl)
           "app=nginx").
  vm_compute. reflexivity.
Defined.

Lemma replication_controller_nil_selector_witness :
  podsForObject (cluster [] nginx3 stableDiscovery []) context_Background
    (ReplicationController {| metav1.Name := "old"; metav1.Namespace := "default" |}
       None) fresh =
    (Ok nginx3,
     {| o := o fresh;
        log := [ReqList context_Background "default"
                  {| metav1.LabelSelector_ := "";
                     metav1.FieldSelector := "" |}] |}).
Proof.
  apply (proj2 (@replication_controller_nil_selector textSelectors
                  (cluster [] nginx3 stableDiscovery [])
                  context_Background
                  {| metav1.Name := "old"; metav1.Namespace := "default" |}
                  fresh eq_refl)).
Defined.

Lemma service_selector_witness :
  exists r, selectorsForObject (webService (Some {[ "app" := "nginx" ]})) = inr r.
Proof.
  apply (proj2 (proj1 (@service_selector textSelectors
                         {| metav1.Name := "web"; metav1.Namespace := "default" |}
                         (Some {[ "app" := "nginx" ]})))).
  exists {[ "app" := "nginx" ]}. split; [reflexivity|].
  apply map_non_empty_singleton.
Defined.

Lemma RunE_single_pod_witness :
  RunE podCluster context_Background ["nginx"] fresh =
    (Ok tt,
     {| o := written ["pod default/nginx evicted" +:+ nl]
               (setObject (APod nginx) (setResourceArg "nginx" NewEvictOptions));
        log := [ReqInfos {| NamespaceParam := "default";
                            ResourceNames := Some ("pods", "nginx");
                            ResourceTypes := None;
                            LabelSelectorParam := None |};
                ReqDiscovery "v1";
                evictRequest ClientV1 nginx] |}).
Proof.
  apply (RunE_single_pod podCluster context_Background "nginx" "default" false
           nginx fresh); reflexivity.
Defined.

Lemma RunE_selector_witness :
  RunE (cluster [PodList nginx3] [] stableDiscovery []) context_Background []
       (initial (withSelector "app=nginx" NewEvictOptions)) =
    (Ok tt,
     {| o := written ["pod default/nginx-1 evicted" +:+ nl;
                      "pod default/nginx-2 evicted" +:+ nl;
                      "pod default/nginx-3 evicted" +:+ nl]
               (setObject (PodList nginx3) (withSelector "app=nginx" NewEvictOptions));
        log := [ReqInfos {| NamespaceParam := "default";
                            ResourceNames := None;
                            ResourceTypes := Some "pods";
                            LabelSelectorParam := Some "app=nginx" |};
                ReqDiscovery "v1";
                evictRequest ClientV1 (mkPod "default" "nginx-1");
                evictRequest ClientV1 (mkPod "default" "nginx-2");
                evictRequest ClientV1 (mkPod "default" "nginx-3")] |}).
Proof.
  apply (RunE_selector (cluster [PodList nginx3] [] stableDiscovery [])
           context_Background "default" false nginx3 []
           (initial (withSelector "app=nginx" NewEvictOptions)));
    [discriminate|reflexivity|reflexivity|discriminate|reflexivity|reflexivity|].
  intros i p _. reflexivity.
Defined.
